(** * Ampel-plots: [ampel/plot/utils.py]

    A shallow embedding of the SVG helpers of Ampel-plots
    ([mplfig_to_svg_dict], [decompress_svg_dict], [stack_svg], [rescale],
    [to_png]) together with the pieces of the Python runtime they lean on:
    exceptions, [str] methods, the [float] type with its text conversions,
    and [base64.b64encode]. *)

From Stdlib Require Import ZArith NArith String Ascii List Bool Lia.
From Stdlib Require Import Floats DecimalString.
From Stdlib.Strings Require Import Byte.
From stdpp Require Import base option strings gmap.

Set Warnings "-inexact-float".

Local Open Scope Z_scope.

(* ===================================================================== *)
(** * The Python runtime *)
(* ===================================================================== *)

Module Py.

(** ** Exceptions and results

    A call either returns a value or raises; the exception classes are the
    ones the module can meet. *)

Inductive exn : Type :=
| ValueError (msg : string)
| AttributeError (msg : string)
| KeyError (key : string)
| TypeError (msg : string)
| XMLSyntaxError.

Inductive result (A : Type) : Type :=
| Ok (a : A)
| Raise (e : exn).
Arguments Ok {A} a.
Arguments Raise {A} e.

Definition bind {A B} (r : result A) (k : A -> result B) : result B :=
  match r with
  | Ok a => k a
  | Raise e => Raise e
  end.

#[global] Instance result_ret : MRet result := fun _ a => Ok a.
#[global] Instance result_bind : MBind result := fun _ _ k r => bind r k.

(** ** [str] methods *)

Definition dquote : string := String (ascii_of_nat 34) EmptyString.

Fixpoint startswith (p s : string) : bool :=
  match p, s with
  | EmptyString, _ => true
  | String a p', String b s' => if Ascii.eqb a b then startswith p' s' else false
  | String _ _, EmptyString => false
  end.

(** [s.endswith(p)]: [p] is [s] or the end of [s]. *)
Fixpoint endswith (p s : string) : bool :=
  String.eqb p s
  || match s with
     | String _ s' => endswith p s'
     | EmptyString => false
     end.

(** [sub in s] *)
Fixpoint contains (sub s : string) : bool :=
  startswith sub s
  || match s with
     | String _ s' => contains sub s'
     | EmptyString => false
     end.

(** [s.replace(old, new)] for a non-empty [old]: the occurrences are found
    from the left and do not overlap; [skip] counts the characters of the
    occurrence just replaced that are still to be dropped. *)
Fixpoint replace_from (old new : string) (skip : nat) (s : string) : string :=
  match s with
  | EmptyString => EmptyString
  | String c s' =>
      match skip with
      | S k => replace_from old new k s'
      | O =>
          if startswith old s
          then new +:+ replace_from old new (String.length old - 1) s'
          else String c (replace_from old new O s')
      end
  end.

Definition replace (old new s : string) : string := replace_from old new O s.

(** [s.split(sep)[0]] for a one-character [sep]: the text before the first
    [sep], the whole of [s] when there is none. *)
Fixpoint split_head (sep : ascii) (s : string) : string :=
  match s with
  | EmptyString => EmptyString
  | String c s' => if Ascii.eqb c sep then EmptyString else String c (split_head sep s')
  end.

(** ** [float]: IEEE 754 binary64

    CPython's [float] is the C [double]; the kernel's primitive floats are the
    same format, so [+], [*] and [>] below are the machine's. *)

Definition fadd (a b : float) : float := PrimFloat.add a b.
Definition fmul (a b : float) : float := PrimFloat.mul a b.
(** [a > b] *)
Definition fgt (a b : float) : bool := PrimFloat.ltb b a.

(** *** From a decimal to the nearest float

    [round_ratio neg n d] is [n/d] ([n], [d] positive) rounded to nearest,
    ties to even: the quotient is computed to at least 63 bits with a sticky
    bit below it, and [binary_normalize] rounds that. *)
Definition round_ratio (neg : bool) (n d : Z) : float :=
  let k := 64 + Z.log2 d - Z.log2 n in
  let n' := if 0 <=? k then n * 2 ^ k else n in
  let d' := if 0 <=? k then d else d * 2 ^ (- k) in
  let q := n' / d' in
  let m := 2 * q + (if n' mod d' =? 0 then 0 else 1) in
  SF2Prim (binary_normalize prec emax (if neg then - m else m) (- k - 1) false).

(** The float nearest to [(-1)^neg * m * 10^e]. *)
Definition float_of_decimal (neg : bool) (m e : Z) : float :=
  if m <=? 0 then (if neg then neg_zero else zero)
  else if 0 <=? e then round_ratio neg (m * 10 ^ e) 1
  else round_ratio neg m (10 ^ (- e)).

(** *** [float(s)] *)

Definition is_space (c : ascii) : bool :=
  let n := nat_of_ascii c in
  ((9 <=? n)%nat && (n <=? 13)%nat) || ((28 <=? n)%nat && (n <=? 32)%nat).

Definition is_digit (c : ascii) : bool :=
  let n := nat_of_ascii c in (48 <=? n)%nat && (n <=? 57)%nat.

Definition digit_val (c : ascii) : Z := Z.of_nat (nat_of_ascii c) - 48.

Definition lower (c : ascii) : ascii :=
  let n := nat_of_ascii c in
  if (65 <=? n)%nat && (n <=? 90)%nat then ascii_of_nat (n + 32) else c.

Fixpoint lstrip (cs : list ascii) : list ascii :=
  match cs with
  | c :: cs' => if is_space c then lstrip cs' else cs
  | [] => []
  end.

Definition strip (cs : list ascii) : list ascii :=
  rev (lstrip (rev (lstrip cs))).

(** An underscore is allowed between two digits only. *)
Fixpoint underscores_ok (prev_digit : bool) (cs : list ascii) : bool :=
  match cs with
  | [] => true
  | c :: cs' =>
      if Ascii.eqb c "_"
      then prev_digit
           && match cs' with d :: _ => is_digit d | [] => false end
           && underscores_ok false cs'
      else underscores_ok (is_digit c) cs'
  end.

Fixpoint span_digits (cs : list ascii) : list ascii * list ascii :=
  match cs with
  | c :: cs' =>
      if is_digit c then let '(ds, r) := span_digits cs' in (c :: ds, r)
      else ([], cs)
  | [] => ([], [])
  end.

Definition digits_val (ds : list ascii) : Z :=
  fold_left (fun acc c => 10 * acc + digit_val c) ds 0.

Definition take_sign (cs : list ascii) : bool * list ascii :=
  match cs with
  | c :: cs' =>
      if Ascii.eqb c "-" then (true, cs')
      else if Ascii.eqb c "+" then (false, cs')
      else (false, cs)
  | [] => (false, [])
  end.

(** The exponent part: nothing, or [e], a sign and at least one digit. *)
Definition parse_exponent (cs : list ascii) : option Z :=
  match cs with
  | [] => Some 0
  | c :: cs' =>
      if Ascii.eqb (lower c) "e" then
        let '(neg, r) := take_sign cs' in
        match span_digits r with
        | ((_ :: _) as ds, []) => Some (if neg then - digits_val ds else digits_val ds)
        | _ => None
        end
      else None
  end.

Definition parse_float (cs : list ascii) : option float :=
  let cs := strip cs in
  if negb (underscores_ok false cs) then None else
  let cs := List.filter (fun c => negb (Ascii.eqb c "_")) cs in
  let '(neg, body) := take_sign cs in
  let word := string_of_list_ascii (map lower body) in
  if String.eqb word "inf" || String.eqb word "infinity"
  then Some (if neg then neg_infinity else infinity)
  else if String.eqb word "nan" then Some nan
  else
    let '(ip, r1) := span_digits body in
    let '(fp, r2) :=
      match r1 with
      | c :: t => if Ascii.eqb c "." then span_digits t else ([], r1)
      | [] => ([], [])
      end in
    match ip ++ fp with
    | [] => None
    | ds =>
        match parse_exponent r2 with
        | Some ex => Some (float_of_decimal neg (digits_val ds) (ex - Z.of_nat (length fp)))
        | None => None
        end
    end.

(** [float(s)] on ASCII text; anything but a number raises [ValueError]. *)
Definition float_of_str (s : string) : result float :=
  match parse_float (list_ascii_of_string s) with
  | Some x => Ok x
  | None => Raise (ValueError ("could not convert string to float: '" +:+ s +:+ "'"))
  end.

(** *** [str(x)]

    [str] and [repr] of a float give the shortest decimal that reads back as
    the same float (the nearest to it among the shortest), in positional
    notation when the decimal point falls within [-4 < decpt <= 16] and with
    an exponent otherwise. *)

Definition dec (n : Z) : string := NilEmpty.string_of_uint (N.to_uint (Z.to_N n)).

Fixpoint zeros (k : nat) : string :=
  match k with
  | O => EmptyString
  | S k' => String "0" (zeros k')
  end.

(** [n/d < 10^p] *)
Definition below_pow10 (n d p : Z) : bool :=
  if 0 <=? p then n <? d * 10 ^ p else n * 10 ^ (- p) <? d.

Fixpoint find_decpt (fuel : nat) (n d p : Z) : Z :=
  match fuel with
  | O => p
  | S fuel' => if below_pow10 n d p then p else find_decpt fuel' n d (p + 1)
  end.

(** The position of the decimal point of [n/d]: the least [p] with
    [n/d < 10^p], searched upwards from an estimate that lies below it. *)
Definition decpt_of (n d : Z) : Z :=
  find_decpt 8 n d ((Z.log2 n - Z.log2 d - 1) * 30103 / 100000 - 1).

(** The [nd]-digit decimal nearest to [n/d] among those that read back as
    [x], when there is one: only the two neighbours of [n/d] can. *)
Definition candidate (x : float) (n d p nd : Z) : option Z :=
  let s := nd - p in
  let tn := if 0 <=? s then n * 10 ^ s else n in
  let td := if 0 <=? s then d else d * 10 ^ (- s) in
  let lo := tn / td in
  let r := tn mod td in
  let back c := PrimFloat.eqb (float_of_decimal false c (p - nd)) x in
  let lo_nearer := (2 * r <? td) || ((2 * r =? td) && Z.even lo) in
  match back lo, back (lo + 1) with
  | true, true => Some (if lo_nearer then lo else lo + 1)
  | true, false => Some lo
  | false, true => Some (lo + 1)
  | false, false => None
  end.

Fixpoint shortest (fuel : nat) (x : float) (n d p nd : Z) : Z * Z :=
  match fuel with
  | O => (0, 0)
  | S fuel' =>
      match candidate x n d p nd with
      | Some c => (c, p - nd)
      | None => shortest fuel' x n d p (nd + 1)
      end
  end.

Fixpoint strip_zeros (fuel : nat) (c e : Z) : Z * Z :=
  match fuel with
  | O => (c, e)
  | S fuel' => if (c mod 10 =? 0) && (0 <? c) then strip_zeros fuel' (c / 10) (e + 1) else (c, e)
  end.

Definition format_repr (neg : bool) (ds : string) (decpt : Z) : string :=
  let nd := Z.of_nat (String.length ds) in
  let body :=
    if (decpt <=? -4) || (16 <? decpt) then
      let e := decpt - 1 in
      let mant :=
        match ds with
        | String c (String _ _ as rest) => String c ("." +:+ rest)
        | _ => ds
        end in
      let es := dec (Z.abs e) in
      mant +:+ "e" +:+ (if e <? 0 then "-" else "+")
           +:+ (if Z.abs e <? 10 then "0" +:+ es else es)
    else if decpt <=? 0 then "0." +:+ zeros (Z.to_nat (- decpt)) +:+ ds
    else if nd <=? decpt then ds +:+ zeros (Z.to_nat (decpt - nd)) +:+ ".0"
    else substring 0 (Z.to_nat decpt) ds +:+ "."
         +:+ substring (Z.to_nat decpt) (Z.to_nat (nd - decpt)) ds in
  if neg then "-" +:+ body else body.

Definition str_of_float (x : float) : string :=
  match Prim2SF x with
  | S754_nan => "nan"
  | S754_infinity s => if s then "-inf" else "inf"
  | S754_zero s => if s then "-0.0" else "0.0"
  | S754_finite s m e =>
      let n := if 0 <=? e then Z.pos m * 2 ^ e else Z.pos m in
      let d := if 0 <=? e then 1 else 2 ^ (- e) in
      let p := decpt_of n d in
      let '(c, ex) := shortest 17 (PrimFloat.abs x) n d p 1 in
      let '(c, ex) := strip_zeros 20 c ex in
      let ds := dec c in
      format_repr s ds (Z.of_nat (String.length ds) + ex)
  end.

(** ** [bytes] and [base64.b64encode]

    Text is kept as its UTF-8 bytes, so [s.encode('utf8')] and
    [str(b, 'utf-8')] only change the view. *)

Definition encode_utf8 (s : string) : list byte := list_byte_of_string s.
Definition decode_utf8 (b : list byte) : string := string_of_list_byte b.

Definition b64_alphabet : string :=
  "ABCDEFGHIJKLMNOPQRSTUVWXYZabcdefghijklmnopqrstuvwxyz0123456789+/".

Definition b64_char (n : N) : byte :=
  match String.get (N.to_nat (N.land n 63)) b64_alphabet with
  | Some c => byte_of_ascii c
  | None => byte_of_ascii "="
  end.

Definition b64_pad : byte := byte_of_ascii "=".

(** Three bytes make four characters; one or two bytes left over are padded
    with [=]. *)
Fixpoint b64encode (bs : list byte) : list byte :=
  match bs with
  | [] => []
  | [a] =>
      let n := N.shiftl (Byte.to_N a) 16 in
      [b64_char (N.shiftr n 18); b64_char (N.shiftr n 12); b64_pad; b64_pad]
  | [a; b] =>
      let n := N.lor (N.shiftl (Byte.to_N a) 16) (N.shiftl (Byte.to_N b) 8) in
      [b64_char (N.shiftr n 18); b64_char (N.shiftr n 12); b64_char (N.shiftr n 6); b64_pad]
  | a :: b :: c :: rest =>
      let n := N.lor (N.lor (N.shiftl (Byte.to_N a) 16) (N.shiftl (Byte.to_N b) 8))
                     (Byte.to_N c) in
      b64_char (N.shiftr n 18) :: b64_char (N.shiftr n 12)
        :: b64_char (N.shiftr n 6) :: b64_char n :: b64encode rest
  end.

(** The 24 bits of a group of three bytes, the six bits of it that start at
    bit [k], and the characters of base64 text. *)
Definition pack (a b c : byte) : N :=
  N.lor (N.lor (N.shiftl (Byte.to_N a) 16) (N.shiftl (Byte.to_N b) 8)) (Byte.to_N c).

Definition sextet (n k : N) : N := N.land (N.shiftr n k) 63.

Definition sixty_four : list N := map N.of_nat (seq 0 64).

Definition b64_symbol (c : byte) : bool :=
  existsb (Byte.eqb c) (list_byte_of_string b64_alphabet) || Byte.eqb c b64_pad.

End Py.

(* ===================================================================== *)
(** * svgutils, as far as the module uses it *)
(* ===================================================================== *)

Module Svg.
Import Py.

(** Coordinates reach the library as Python numbers: the literal [0] is an
    [int], the sizes are [float]s. *)
Inductive num : Type :=
| Int (z : Z)
| Float (x : float).

Definition point : Type := (num * num)%type.

Inductive transform : Type :=
| Translate (x y : num)
| Scale (x y : num).

(** What a figure holds: nodes read from SVG text (kept as read), groups,
    straight lines, and any of these under a transform. *)
#[warnings="-register-all"]
Inductive element : Type :=
| Node (xml : string)
| Group (members : list element)
| Line (a b : point)
| Transformed (t : transform) (e : element).

(** [transform.SVGFigure]: the attributes of the root [<svg>] tag and its
    children, in document order. *)
Record figure : Type := Figure {
  attrib : gmap string string;
  children : list element
}.

(** [SVGFigure()] *)
Definition SVGFigure : figure := Figure {[ "version" := "1.1" ]} [].

(** [fig.root.get(k)] and [fig.root.set(k, v)] *)
Definition get (k : string) (fig : figure) : option string := attrib fig !! k.
Definition set (k v : string) (fig : figure) : figure :=
  Figure (<[ k := v ]> (attrib fig)) (children fig).

(** [fig.append(el)] *)
Definition append (e : element) (fig : figure) : figure :=
  Figure (attrib fig) (children fig ++ [e]).

(** [fig.get_size()], and the [width] and [height] properties. *)
Definition get_size (fig : figure) : option string * option string :=
  (get "width" fig, get "height" fig).
Definition width (fig : figure) : option string := get "width" fig.
Definition height (fig : figure) : option string := get "height" fig.

(** [fig.getroot()]: the children of the root tag as one group. *)
Definition getroot (fig : figure) : element := Group (children fig).

(** [el.moveto(x, y)] and [el.scale_xy(x, y)] *)
Definition moveto (x y : num) (e : element) : element := Transformed (Translate x y) e.
Definition scale_xy (x y : num) (e : element) : element := Transformed (Scale x y) e.

(** Modelled from the spec: svgutils' [SVGFigure(width, height)], which is
    not part of this repository: a new document sized [width] by [height].
    [size_text] is the text the library writes for a size. *)
Definition SVGFigure_sized (size_text : float -> string) (w h : float) : figure :=
  set "height" (size_text h) (set "width" (size_text w) SVGFigure).

(** A size written the way svgutils' [Unit] writes a bare number, as
    pixels: ["864.0px"] for [864.0]. *)
Definition px_text (x : float) : string := str_of_float x +:+ "px".

(** ["%s" % v] for an attribute that may be missing. *)
Definition fmt_s (v : option string) : string := default "None" v.


End Svg.

(* ===================================================================== *)
(** * ampel.plot.utils *)
(* ===================================================================== *)

Module Utils.
Import Py Svg.

(** ** The record of a rendered plot *)

Inductive value : Type :=
| VNone
| VInt (z : Z)
| VFloat (x : float)
| VStr (s : string)
| VBytes (b : list byte)
| VList (l : list string).

(** What a caller may pass where a record is expected. *)
Inductive pyobj : Type :=
| Dict (d : gmap string value)
| Plain (v : value).

Definition truthy_str (s : option string) : bool :=
  match s with
  | Some (String _ _) => true
  | _ => false
  end.

Definition truthy_list {A} (l : option (list A)) : bool :=
  match l with
  | Some (_ :: _) => true
  | _ => false
  end.

Definition truthy_bool (b : option bool) : bool := default false b.

Section Envelope.
(** The collaborators: matplotlib's figure with the three calls made on it,
    and [ampel.util.compression]. *)
Variable MplFigure : Type.
Variable set_size_inches : Z -> Z -> MplFigure -> MplFigure.
Variable suptitle : string -> MplFigure -> MplFigure.
(** The text [savefig(imgdata, format='svg', bbox_inches='tight')] writes. *)
Variable savefig : MplFigure -> string.
Variable fcompress : list byte -> string -> list byte.
(** Decompressing may fail on bytes that [fcompress] did not write. *)
Variable decompress_str : list byte -> result string.

(** The figure as it is when saved: resized when both a width and a height
    are given, titled when there is a title and it is to be shown. *)
Definition staged (mpl_fig : MplFigure) (title : option string)
    (width height : option Z) (fig_include_title : option bool) : MplFigure :=
  let mpl_fig :=
    match width, height with
    | Some w, Some h => set_size_inches w h mpl_fig
    | _, _ => mpl_fig
    end in
  if truthy_str title && truthy_bool fig_include_title
  then suptitle (default EmptyString title) mpl_fig
  else mpl_fig.

(** [mplfig_to_svg_dict]. The logger and [close] act on the outside only
    and leave the returned record alone. *)
Definition mplfig_to_svg_dict (mpl_fig : MplFigure) (file_name : string)
    (title : option string) (tags : option (list string)) (compress : Z)
    (width height : option Z) (fig_include_title : option bool)
    : gmap string value :=
  let mpl_fig := staged mpl_fig title width height fig_include_title in
  let imgdata := savefig mpl_fig in
  let ret : gmap string value := {[ "name" := VStr file_name ]} in
  let ret := if truthy_list tags then <[ "tag" := VList (default [] tags) ]> ret else ret in
  let ret := if truthy_str title then <[ "title" := VStr (default EmptyString title) ]> ret else ret in
  if compress =? 0 then <[ "svg" := VStr imgdata ]> ret
  else
    let ret := <[ "svg" := VBytes (fcompress (encode_utf8 imgdata) file_name) ]> ret in
    if compress =? 2 then <[ "svg_str" := VStr imgdata ]> ret else ret.

(** [decompress_svg_dict]: the record returned is the argument itself,
    changed in place; the result is its content after the call. *)
Definition decompress_svg_dict (svg_dict : pyobj) : result (gmap string value) :=
  match svg_dict with
  | Plain _ => Raise (ValueError "Parameter svg_dict must be an instance of dict")
  | Dict d =>
      match d !! "svg" with
      | None => Raise (KeyError "svg")
      | Some (VBytes b) =>
          s ← decompress_str b;
          Ok (<[ "svg" := VStr s ]> d)
      | Some _ => Ok d
      end
  end.
End Envelope.

(** ** Stacking two documents *)

(** [float(s.replace("pt", ""))] on what [get_size] returned; the text is
    handed back with the number. *)
Definition pt_float (attr : option string) : result (string * float) :=
  match attr with
  | None => Raise (AttributeError "'NoneType' object has no attribute 'replace'")
  | Some s => x ← float_of_str (replace "pt" EmptyString s); Ok (s, x)
  end.

(** The body of [stack_svg], from the parsed documents to the new one. *)
Definition stack_svg_body (fig1 fig2 : figure) (horizontally separator : bool)
    : result figure :=
  let '(str_w1, str_h1) := get_size fig1 in
  let '(str_w2, str_h2) := get_size fig2 in
  '(str_w1, w1) ← pt_float str_w1;
  '(str_h1, h1) ← pt_float str_h1;
  '(str_w2, w2) ← pt_float str_w2;
  '(str_h2, h2) ← pt_float str_h2;
  let el1 := getroot fig1 in
  let el2 := getroot fig2 in
  let fig := SVGFigure in
  let '(el2, fig) :=
    if horizontally then
      (moveto (Float w1) (Int 0) el2,
       set "width" (str_of_float (fadd w1 w2) +:+ "pt")
         (set "height" (if fgt h1 h2 then str_h1 else str_h2) fig))
    else
      (moveto (Int 0) (Float h1) el2,
       set "width" (if fgt w1 w2 then str_w1 else str_w2)
         (set "height" (str_of_float (fadd h1 h2) +:+ "pt") fig)) in
  let fig :=
    set "viewBox"
      ("0 0 " +:+ fmt_s (get "width" fig) +:+ " " +:+ fmt_s (get "height" fig)) fig in
  let fig := append el1 fig in
  let fig := append el2 fig in
  let fig :=
    if separator then
      if horizontally
      then append (Line (Float w1, Int 0) (Float w1, Float (if fgt h1 h2 then h1 else h2))) fig
      else append (Line (Int 0, Float h1) (Float (if fgt w1 w2 then w1 else w2), Float h1)) fig
    else fig in
  Ok fig.

(** ** Rescaling a document *)

(** [float(s.split('.')[0])] on the [width] or [height] property. *)
Definition split_float (attr : option string) : result float :=
  match attr with
  | None => Raise (AttributeError "'NoneType' object has no attribute 'split'")
  | Some s => float_of_str (split_head "." s)
  end.

Section Rescale.
Variable size_text : float -> string.

(** The body of [rescale], from the parsed document to the new one. *)
Definition rescale_body (original : figure) (scale : float) : result figure :=
  original_width ← split_float (width original);
  original_height ← split_float (height original);
  let scaled :=
    SVGFigure_sized size_text (fmul original_width scale) (fmul original_height scale) in
  let svg_st := getroot original in
  let svg_st := scale_xy (Float scale) (Float scale) svg_st in
  Ok (append svg_st scaled).
End Rescale.

Section Text.
(** lxml behind svgutils: [transform.fromstring] and [fig.to_str()]. *)
Variable fromstring : string -> result figure.
Variable to_str : figure -> list byte.
Variable size_text : float -> string.

Definition stack_svg (svg1 svg2 : string) (horizontally separator : bool)
    : result (list byte) :=
  fig1 ← fromstring svg1;
  fig2 ← fromstring svg2;
  fig ← stack_svg_body fig1 fig2 horizontally separator;
  Ok (to_str fig).

Definition rescale (svg : string) (scale : float) : result string :=
  original ← fromstring svg;
  scaled ← rescale_body size_text original scale;
  Ok (decode_utf8 (to_str scaled)).
End Text.

(** ** Rasterizing *)

Section Raster.
(** [cairosvg.svg2png(bytestring=content, dpi=dpi)] *)
Variable svg2png : string -> Z -> result (list byte).

(** [IPython.display.Image(data).data] hands the bytes back. *)
Definition Image_data (data : list byte) : list byte := data.

Definition to_png (content : string) (dpi : Z) : result string :=
  png ← svg2png content dpi;
  Ok ("<img src=" +:+ dquote +:+ "data:image/png;base64,"
        +:+ decode_utf8 (b64encode (Image_data png)) +:+ dquote +:+ ">").
End Raster.

(** ** Rendering with plot properties, and saving to disk *)

(** [ampel.model.PlotProperties], as far as [mplfig_to_svg_dict1] reads it:
    the two methods that take [extra], the method [get_compress] and the
    plain fields. *)
Module PlotProps.
Record t (Extra : Type) : Type := Make {
  get_file_name : option Extra -> string;
  get_title : option Extra -> option string;
  fig_include_title : option bool;
  width : option Z;
  height : option Z;
  tags : option (list string);
  get_compress : Z;
  disk_save : option string
}.
Arguments get_file_name {Extra} _ _.
Arguments get_title {Extra} _ _.
Arguments fig_include_title {Extra} _.
Arguments width {Extra} _.
Arguments height {Extra} _.
Arguments tags {Extra} _.
Arguments get_compress {Extra} _.
Arguments disk_save {Extra} _.
End PlotProps.

Section Disk.
Variable MplFigure : Type.
Variable set_size_inches : Z -> Z -> MplFigure -> MplFigure.
Variable suptitle : string -> MplFigure -> MplFigure.
Variable savefig : MplFigure -> string.
Variable fcompress : list byte -> string -> list byte.
Variable Extra : Type.
(** The file system: [open(path, "w")] creates or empties the file or
    raises, and [f.write(text)] adds text to the file opened at [path]. *)
Variable FS : Type.
Variable open_w : string -> FS -> result FS.
Variable write : string -> string -> FS -> FS.

(** [f.write(v)] on a file opened in text mode: only [str] is taken. *)
Definition write_value (path : string) (v : value) (fs : FS)
    (svg_doc : gmap string value) : FS * result (gmap string value) :=
  match v with
  | VStr text => (write path text fs, Ok svg_doc)
  | VBytes _ => (fs, Raise (TypeError "write() argument must be str, not bytes"))
  | VNone => (fs, Raise (TypeError "write() argument must be str, not NoneType"))
  | VInt _ => (fs, Raise (TypeError "write() argument must be str, not int"))
  | VFloat _ => (fs, Raise (TypeError "write() argument must be str, not float"))
  | VList _ => (fs, Raise (TypeError "write() argument must be str, not list"))
  end.

(** [mplfig_to_svg_dict1]: the file system before the call goes in, the
    file system after it comes out with the record or the exception. The
    logger and [close] act on the outside only. *)
Definition mplfig_to_svg_dict1 (mpl_fig : MplFigure) (props : PlotProps.t Extra)
    (extra : option Extra) (fs : FS) : FS * result (gmap string value) :=
  let svg_doc :=
    mplfig_to_svg_dict MplFigure set_size_inches suptitle savefig fcompress
      mpl_fig (PlotProps.get_file_name props extra) (PlotProps.get_title props extra)
      (PlotProps.tags props) (PlotProps.get_compress props)
      (PlotProps.width props) (PlotProps.height props)
      (PlotProps.fig_include_title props) in
  if truthy_str (PlotProps.disk_save props) then
    let file_name := PlotProps.get_file_name props extra in
    let path := default EmptyString (PlotProps.disk_save props) +:+ "/" +:+ file_name in
    match open_w path fs with
    | Raise e => (fs, Raise e)
    | Ok fs =>
        if PlotProps.get_compress props =? 2 then
          match svg_doc !! "svg_str" with
          | Some v => write_value path v fs (delete "svg_str" svg_doc)
          | None => (fs, Raise (KeyError "svg_str"))
          end
        else
          match svg_doc !! "svg" with
          | Some v => write_value path v fs svg_doc
          | None => (fs, Raise (KeyError "svg"))
          end
    end
  else (fs, Ok svg_doc).
End Disk.

(** ** Vocabulary of the statements *)

(** [m] is the larger of [a] and [b]: it is one of them and neither is
    greater. *)
Definition larger_of (m a b : float) : Prop :=
  (m = a \/ m = b) /\ fgt a m = false /\ fgt b m = false.

(** An attribute holds the text of whichever of two sizes is the larger. *)
Definition declares_larger (attr : option string)
    (s1 : string) (x1 : float) (s2 : string) (x2 : float) : Prop :=
  (attr = Some s1 /\ larger_of x1 x1 x2) \/ (attr = Some s2 /\ larger_of x2 x1 x2).

(** The magnitude a dimension text declares, in the spec's words (Unit
    Parser): the leading number of a text such as ["600px"] or ["12.5pt"],
    fraction included, whatever unit follows. *)
Fixpoint numeric_prefix (s : string) : string :=
  match s with
  | String c s' =>
      if is_digit c || Ascii.eqb c "." then String c (numeric_prefix s') else EmptyString
  | EmptyString => EmptyString
  end.

Definition declared_magnitude (s : string) : result float :=
  float_of_str (numeric_prefix s).

(** A document of the given declared size around one node. *)
Definition document (w h body : string) : figure :=
  set "height" h (set "width" w (append (Node body) SVGFigure)).

(** The documents of the spec's scenarios. *)
Definition doc_100x50 : figure := document "100pt" "50pt" "<rect/>".
Definition doc_80x60 : figure := document "80pt" "60pt" "<circle/>".
Definition doc_432_5 : figure := document "432.5px" "300.25px" "<rect/>".
Definition doc_600px : figure := document "600px" "400px" "<rect/>".

(** The two ends of the image tag. *)
Definition img_prefix : string := "<img src=" +:+ dquote +:+ "data:image/png;base64,".
Definition img_suffix : string := dquote +:+ ">".

(** A stand-in rasterizer for running [to_png]: the PNG signature. *)
Definition png_signature : list byte := [x89; x50; x4e; x47; x0d; x0a; x1a; x0a].

(** The record of [mplfig_to_svg_dict] before the [svg] keys are written. *)
Definition header (file_name : string) (title : option string)
    (tags : option (list string)) : gmap string value :=
  let ret : gmap string value := {[ "name" := VStr file_name ]} in
  let ret := if truthy_list tags then <[ "tag" := VList (default [] tags) ]> ret else ret in
  if truthy_str title then <[ "title" := VStr (default EmptyString title) ]> ret else ret.

(** Stand-ins for running the envelope: a renderer, a compressor that
    reverses the bytes with its inverse, a disk of named texts on which
    opening always works, and plot properties. *)
Definition render_stub (_ : unit) : string := "<svg/>".
Definition compress_stub (b : list byte) (_ : string) : list byte := rev b.
Definition decompress_stub (b : list byte) : result string := Ok (decode_utf8 (rev b)).
Definition disk_open (path : string) (fs : gmap string string)
    : result (gmap string string) :=
  Ok (<[ path := EmptyString ]> fs).
Definition disk_write (path text : string) (fs : gmap string string)
    : gmap string string :=
  <[ path := default EmptyString (fs !! path) +:+ text ]> fs.
(** A stand-in parser that knows the documents of the scenario by name. *)
Definition parse_stub (svg : string) : result figure :=
  if String.eqb svg "first" then Ok doc_100x50
  else if String.eqb svg "second" then Ok doc_80x60
  else Raise XMLSyntaxError.
Definition plot_props (compress : Z) (disk : option string) : PlotProps.t unit :=
  PlotProps.Make unit (fun _ => "plot.svg") (fun _ => Some "A plot") (Some true)
    None None (Some ["lc"]) compress disk.

End Utils.

(* ===================================================================== *)
(** * Facts about the runtime *)
(* ===================================================================== *)

Module PyFacts.
Import Py.

(** ** Text *)

Lemma startswith_app (p s : string) : startswith p (p +:+ s) = true.
Proof.
  induction p as [|c p IH]; [reflexivity|].
  simpl. rewrite Ascii.eqb_refl. exact IH.
Qed.

Lemma endswith_refl (p : string) : endswith p p = true.
Proof.
  destruct p as [|c p]; [reflexivity|].
  change (endswith (String c p) (String c p))
    with (String.eqb (String c p) (String c p) || endswith (String c p) p).
  rewrite String.eqb_refl. reflexivity.
Qed.

Lemma endswith_app (p s : string) : endswith p (s +:+ p) = true.
Proof.
  induction s as [|c s IH].
  - apply endswith_refl.
  - change (String c s +:+ p) with (String c (s +:+ p)).
    change (endswith p (String c (s +:+ p)))
      with (String.eqb p (String c (s +:+ p)) || endswith p (s +:+ p)).
    rewrite IH. apply orb_true_r.
Qed.

Lemma app_assoc_str (a b c : string) : (a +:+ b) +:+ c = a +:+ (b +:+ c).
Proof.
  induction a as [|x a IH]; [reflexivity|].
  change (String x ((a +:+ b) +:+ c) = String x (a +:+ (b +:+ c))). now rewrite IH.
Qed.

Lemma contains_inner (p a b : string) : contains p (a +:+ p +:+ b) = true.
Proof.
  induction a as [|c a IH].
  - change (EmptyString +:+ p +:+ b) with (p +:+ b).
    destruct (p +:+ b) eqn:E; cbn [contains]; rewrite <- ?E, startswith_app; reflexivity.
  - change (String c a +:+ p +:+ b) with (String c (a +:+ p +:+ b)).
    cbn [contains]. rewrite IH. apply orb_true_r.
Qed.

(** ** Comparing floats

    [>] is the order of the values the two floats stand for, read through
    the specification of the primitive. *)

Lemma SFcompare_antisym (x y : spec_float) :
  SFcompare y x = option_map CompOpp (SFcompare x y).
Proof.
  destruct x as [sx|sx| |sx mx ex], y as [sy|sy| |sy my ey]; simpl;
    try reflexivity; try (destruct sx; reflexivity); try (destruct sy; reflexivity);
    try (destruct sx, sy; reflexivity).
  destruct sx, sy; simpl; try reflexivity;
    rewrite (Z.compare_antisym ex ey);
    change (Pos.compare_cont Eq my mx) with (Pos.compare my mx);
    change (Pos.compare_cont Eq mx my) with (Pos.compare mx my);
    rewrite (Pos.compare_antisym mx my);
    destruct (ex ?= ey)%Z; simpl; try reflexivity;
    destruct (mx ?= my)%positive; reflexivity.
Qed.

Lemma fgt_asym (a b : float) : fgt a b = true -> fgt b a = false.
Proof.
  unfold fgt. rewrite !ltb_spec. unfold SFltb.
  rewrite (SFcompare_antisym (Prim2SF b) (Prim2SF a)).
  destruct (SFcompare (Prim2SF b) (Prim2SF a)) as [[]|]; simpl; congruence.
Qed.

Lemma fgt_irrefl (a : float) : fgt a a = false.
Proof.
  destruct (fgt a a) eqn:E; [|reflexivity].
  pose proof (fgt_asym _ _ E). congruence.
Qed.

(** ** Multiplying by [1.0]

    The product of a mantissa with [2^52] at exponent [e - 52] shifts back to
    the mantissa at exponent [e] with nothing lost, so rounding returns the
    float itself. *)

Lemma digits2_iter_xO (m : positive) :
  Z.pos (digits2_pos (Pos.iter xO m 52)) = (Z.pos (digits2_pos m) + 52)%Z.
Proof. cbn [Pos.iter digits2_pos]. lia. Qed.

Lemma mul_pow52 (m : positive) : (m * 4503599627370496)%positive = Pos.iter xO m 52.
Proof. rewrite Pos.mul_comm. reflexivity. Qed.

Lemma shr_52 (m : positive) (e : Z) :
  shr (Build_shr_record (Z.pos (Pos.iter xO m 52)) false false) e 52
  = (Build_shr_record (Z.pos m) false false, (e + 52)%Z).
Proof. reflexivity. Qed.

Lemma shr_fexp_canonical (m : positive) (e : Z) :
  canonical_mantissa prec emax m e = true ->
  shr_fexp prec emax (Z.pos m) e loc_Exact = (Build_shr_record (Z.pos m) false false, e).
Proof.
  unfold shr_fexp, canonical_mantissa. intros H. apply Z.eqb_eq in H.
  cbn [Zdigits2]. rewrite H, Z.sub_diag. reflexivity.
Qed.

Lemma shr_fexp_scaled (m : positive) (e : Z) :
  canonical_mantissa prec emax m e = true ->
  shr_fexp prec emax (Z.pos (m * 4503599627370496)) (e + -52) loc_Exact
  = (Build_shr_record (Z.pos m) false false, e).
Proof.
  unfold shr_fexp, canonical_mantissa. intros H. apply Z.eqb_eq in H.
  rewrite mul_pow52. cbn [Zdigits2]. rewrite digits2_iter_xO.
  replace (Z.pos (digits2_pos m) + 52 + (e + -52))%Z
    with (Z.pos (digits2_pos m) + e)%Z by lia.
  rewrite H. replace (e - (e + -52))%Z with 52%Z by lia.
  cbn [shr_record_of_loc]. rewrite shr_52. f_equal. lia.
Qed.

Lemma SFmul_one_r (x : spec_float) :
  valid_binary x = true -> SF64mul x (S754_finite false 4503599627370496 (-52)) = x.
Proof.
  destruct x as [s|s| |s m e]; cbn [SF64mul SFmul valid_binary]; intros V;
    try (destruct s; reflexivity); try reflexivity.
  unfold bounded in V. apply andb_true_iff in V as [C B].
  unfold binary_round_aux.
  rewrite (shr_fexp_scaled m e C). cbn [shr_m loc_of_shr_record round_nearest_even].
  rewrite (shr_fexp_canonical m e C). cbn [shr_m]. rewrite B.
  destruct s; reflexivity.
Qed.

Lemma fmul_one_r (x : float) : fmul x 1%float = x.
Proof.
  unfold fmul. apply Prim2SF_inj. rewrite mul_spec.
  change (Prim2SF 1) with (S754_finite false 4503599627370496 (-52)).
  apply SFmul_one_r, Prim2SF_valid.
Qed.

(** ** The conversions at work *)

Example float_of_str_460_8 : float_of_str "460.8" = Ok 460.8%float.
Proof. vm_compute. reflexivity. Qed.

Example str_of_float_sum : str_of_float (fadd 0.1 0.2) = "0.30000000000000004".
Proof. vm_compute. reflexivity. Qed.

Example str_of_float_whole : str_of_float 110 = "110.0".
Proof. vm_compute. reflexivity. Qed.

Example str_of_float_exponent : str_of_float 1e16 = "1e+16".
Proof. vm_compute. reflexivity. Qed.

Example float_of_str_unit : exists msg, float_of_str "600px" = Raise (ValueError msg).
Proof. eexists. vm_compute. reflexivity. Qed.

(** The test vectors of RFC 4648. *)
Example b64encode_vectors :
  map (fun s => decode_utf8 (b64encode (encode_utf8 s)))
    [EmptyString; "f"; "fo"; "foo"; "foob"; "fooba"; "foobar"]
  = [EmptyString; "Zg=="; "Zm8="; "Zm9v"; "Zm9vYg=="; "Zm9vYmE="; "Zm9vYmFy"].
Proof. vm_compute. reflexivity. Qed.

Example replace_pt : replace "pt" EmptyString "460.8pt" = "460.8".
Proof. reflexivity. Qed.

Example replace_leftmost : replace "aa" "b" "aaaaa" = "bba".
Proof. reflexivity. Qed.

Example split_head_fraction : split_head "." "432.5px" = "432".
Proof. reflexivity. Qed.

Example split_head_whole : split_head "." "600px" = "600px".
Proof. reflexivity. Qed.

End PyFacts.

(* ===================================================================== *)
(** * Stacking *)
(* ===================================================================== *)

Module StackFacts.
Import Py Svg Utils PyFacts.

(** ** Attributes and children of a figure under [set] and [append] *)

Lemma get_set_eq (k v : string) (fig : figure) : get k (set k v fig) = Some v.
Proof. unfold get, set. cbn [attrib]. apply lookup_insert_eq. Qed.

Lemma get_set_ne (k k' v : string) (fig : figure) :
  k <> k' -> get k (set k' v fig) = get k fig.
Proof. intros Hk. unfold get, set. cbn [attrib]. apply lookup_insert_ne. congruence. Qed.

Lemma get_append (k : string) (e : element) (fig : figure) :
  get k (append e fig) = get k fig.
Proof. reflexivity. Qed.

Lemma children_set (k v : string) (fig : figure) : children (set k v fig) = children fig.
Proof. reflexivity. Qed.

Lemma children_append (e : element) (fig : figure) :
  children (append e fig) = children fig ++ [e].
Proof. reflexivity. Qed.

Ltac figure_simpl :=
  repeat first
    [ rewrite get_set_eq
    | rewrite get_append
    | rewrite children_set
    | rewrite children_append
    | rewrite get_set_ne by discriminate ].

(** ** The larger of two floats *)

Lemma larger_of_choice (a b : float) : larger_of (if fgt a b then a else b) a b.
Proof.
  unfold larger_of. destruct (fgt a b) eqn:E.
  - split; [now left|]. split; [apply fgt_irrefl | now apply fgt_asym].
  - split; [now right|]. split; [exact E | apply fgt_irrefl].
Qed.

(** ** What [stack_svg_body] builds

    With all four sizes readable the body runs to its end; the document it
    returns is spelled out once, for both layouts. *)

Section Sized.
Variables (fig1 fig2 : figure) (sw1 sh1 sw2 sh2 : string) (w1 h1 w2 h2 : float).
Hypothesis size1 : get_size fig1 = (Some sw1, Some sh1).
Hypothesis size2 : get_size fig2 = (Some sw2, Some sh2).
Hypothesis read_w1 : float_of_str (replace "pt" EmptyString sw1) = Ok w1.
Hypothesis read_h1 : float_of_str (replace "pt" EmptyString sh1) = Ok h1.
Hypothesis read_w2 : float_of_str (replace "pt" EmptyString sw2) = Ok w2.
Hypothesis read_h2 : float_of_str (replace "pt" EmptyString sh2) = Ok h2.

Lemma stack_svg_body_runs (horizontally separator : bool) :
  let W := if horizontally then str_of_float (fadd w1 w2) +:+ "pt"
           else if fgt w1 w2 then sw1 else sw2 in
  let H := if horizontally then (if fgt h1 h2 then sh1 else sh2)
           else str_of_float (fadd h1 h2) +:+ "pt" in
  let el2 := if horizontally then moveto (Float w1) (Int 0) (getroot fig2)
             else moveto (Int 0) (Float h1) (getroot fig2) in
  let line :=
    if horizontally
    then Line (Float w1, Int 0) (Float w1, Float (if fgt h1 h2 then h1 else h2))
    else Line (Int 0, Float h1) (Float (if fgt w1 w2 then w1 else w2), Float h1) in
  exists out,
    stack_svg_body fig1 fig2 horizontally separator = Ok out
    /\ get "width" out = Some W
    /\ get "height" out = Some H
    /\ get "viewBox" out = Some ("0 0 " +:+ W +:+ " " +:+ H)
    /\ children out = [getroot fig1; el2] ++ (if separator then [line] else []).
Proof.
  unfold stack_svg_body. rewrite size1, size2. unfold pt_float.
  rewrite read_w1, read_h1, read_w2, read_h2.
  cbn [mbind result_bind bind]. cbn zeta.
  destruct horizontally, separator; eexists; (split; [reflexivity|]);
    figure_simpl; repeat split; reflexivity.
Qed.

End Sized.

(** A first width that does not read as a float stops the body with the
    error [float] raised; a unit other than ["pt"] is such a width. *)
Lemma stack_svg_body_unreadable (fig1 fig2 : figure) (sw1 : string) (e : exn)
    (horizontally separator : bool) :
  get "width" fig1 = Some sw1 ->
  float_of_str (replace "pt" EmptyString sw1) = Raise e ->
  stack_svg_body fig1 fig2 horizontally separator = Raise e.
Proof.
  intros G E. unfold stack_svg_body, get_size. rewrite G.
  cbv beta iota zeta.
  assert (P : pt_float (Some sw1) = Raise e) by (unfold pt_float; rewrite E; reflexivity).
  rewrite P. reflexivity.
Qed.

Example stack_svg_body_px :
  stack_svg_body (document "80px" "60px" "<rect/>") doc_100x50 false true
  = Raise (ValueError "could not convert string to float: '80px'").
Proof. vm_compute. reflexivity. Qed.

(** ** The declared size *)

(** C1 (as amended). Two documents whose four size texts read as floats
    [w1], [h1], [w2], [h2] once ["pt"] is removed stack into a document
    that, laid out horizontally, declares the width [str(w1 + w2) + "pt"]
    and as height the height text of the taller input, and, laid out
    vertically, declares the height [str(h1 + h2) + "pt"] and as width the
    width text of the wider input. The sum is written the way Python writes
    a float, so whole sums end in [.0]. *)
Theorem stack_svg_declared_size
    (fig1 fig2 : figure) (sw1 sh1 sw2 sh2 : string) (w1 h1 w2 h2 : float)
    (separator : bool) :
  get_size fig1 = (Some sw1, Some sh1) ->
  get_size fig2 = (Some sw2, Some sh2) ->
  float_of_str (replace "pt" EmptyString sw1) = Ok w1 ->
  float_of_str (replace "pt" EmptyString sh1) = Ok h1 ->
  float_of_str (replace "pt" EmptyString sw2) = Ok w2 ->
  float_of_str (replace "pt" EmptyString sh2) = Ok h2 ->
  exists across down,
    stack_svg_body fig1 fig2 true separator = Ok across
    /\ stack_svg_body fig1 fig2 false separator = Ok down
    /\ get "width" across = Some (str_of_float (fadd w1 w2) +:+ "pt")
    /\ declares_larger (get "height" across) sh1 h1 sh2 h2
    /\ get "height" down = Some (str_of_float (fadd h1 h2) +:+ "pt")
    /\ declares_larger (get "width" down) sw1 w1 sw2 w2.
Proof.
  intros S1 S2 W1 H1 W2 H2.
  destruct (stack_svg_body_runs _ _ _ _ _ _ _ _ _ _ S1 S2 W1 H1 W2 H2 true separator)
    as (across & Ea & Wa & Ha & _ & _).
  destruct (stack_svg_body_runs _ _ _ _ _ _ _ _ _ _ S1 S2 W1 H1 W2 H2 false separator)
    as (down & Ed & Wd & Hd & _ & _).
  exists across, down. repeat split; try assumption.
  - rewrite Ha. unfold declares_larger.
    pose proof (larger_of_choice h1 h2) as L.
    destruct (fgt h1 h2); [left | right]; split; auto.
  - rewrite Wd. unfold declares_larger.
    pose proof (larger_of_choice w1 w2) as L.
    destruct (fgt w1 w2); [left | right]; split; auto.
Qed.

(** The spec's scenario, run through the theorem: ["100pt"] by ["50pt"]
    with ["80pt"] by ["60pt"]. *)
Lemma stack_svg_declared_size_scenario :
  (exists across,
      stack_svg_body doc_100x50 doc_80x60 true false = Ok across
      /\ get "width" across = Some "180.0pt"
      /\ get "height" across = Some "60pt")
  /\ (exists down,
      stack_svg_body doc_100x50 doc_80x60 false false = Ok down
      /\ get "width" down = Some "100pt"
      /\ get "height" down = Some "110.0pt").
Proof.
  destruct (stack_svg_declared_size doc_100x50 doc_80x60
              "100pt" "50pt" "80pt" "60pt" 100 50 80 60 false)
    as (across & down & Ea & Ed & Wa & Ha & Hd & Wd);
    try (vm_compute; reflexivity).
  split; [exists across | exists down]; (split; [assumption|]); split.
  - exact Wa.
  - destruct Ha as [[_ (_ & _ & L)] | [E _]]; [|exact E].
    vm_compute in L. discriminate L.
  - destruct Wd as [[E _] | [_ (_ & L & _)]]; [exact E|].
    vm_compute in L. discriminate L.
  - exact Hd.
Defined.

(** C1 as the spec words it fails on its own scenario: the stacked height
    is written ["110.0pt"] and the stacked width ["180.0pt"]. *)
Lemma stack_svg_scenario_sum_text :
  exists across down,
    stack_svg_body doc_100x50 doc_80x60 true false = Ok across
    /\ stack_svg_body doc_100x50 doc_80x60 false false = Ok down
    /\ get "width" across = Some "180.0pt"
    /\ get "width" across <> Some "180pt"
    /\ get "height" down = Some "110.0pt"
    /\ get "height" down <> Some "110pt".
Proof.
  eexists. eexists.
  split; [vm_compute; reflexivity|]. split; [vm_compute; reflexivity|].
  repeat split; try (vm_compute; reflexivity); vm_compute; discriminate.
Qed.

(** ** The viewBox *)

Lemma viewBox_keeps_pt_width (S H : string) :
  contains "pt" ("0 0 " +:+ (S +:+ "pt") +:+ " " +:+ H) = true.
Proof.
  rewrite (app_assoc_str S "pt" (" " +:+ H)).
  rewrite <- (app_assoc_str "0 0 " S ("pt" +:+ " " +:+ H)).
  apply contains_inner.
Qed.

Lemma viewBox_keeps_pt_height (W S : string) :
  contains "pt" ("0 0 " +:+ W +:+ " " +:+ (S +:+ "pt")) = true.
Proof.
  rewrite <- (app_assoc_str " " S "pt").
  rewrite <- (app_assoc_str W (" " +:+ S) "pt").
  rewrite <- (app_assoc_str "0 0 " (W +:+ " " +:+ S) "pt").
  change "pt" with ("pt" +:+ EmptyString) at 2.
  apply contains_inner.
Qed.

(** What the line that sets the viewBox does on every pair of documents:
    it writes ["0 0 <width> <height>"] with the very texts of the width and
    height attributes, so the ["pt"] of the summed dimension is always in
    it, where SVG takes four plain numbers. *)
Theorem stack_svg_viewBox
    (fig1 fig2 : figure) (sw1 sh1 sw2 sh2 : string) (w1 h1 w2 h2 : float)
    (horizontally separator : bool) :
  get_size fig1 = (Some sw1, Some sh1) ->
  get_size fig2 = (Some sw2, Some sh2) ->
  float_of_str (replace "pt" EmptyString sw1) = Ok w1 ->
  float_of_str (replace "pt" EmptyString sh1) = Ok h1 ->
  float_of_str (replace "pt" EmptyString sw2) = Ok w2 ->
  float_of_str (replace "pt" EmptyString sh2) = Ok h2 ->
  exists out W H,
    stack_svg_body fig1 fig2 horizontally separator = Ok out
    /\ get "width" out = Some W
    /\ get "height" out = Some H
    /\ get "viewBox" out = Some ("0 0 " +:+ W +:+ " " +:+ H)
    /\ contains "pt" ("0 0 " +:+ W +:+ " " +:+ H) = true.
Proof.
  intros S1 S2 W1 H1 W2 H2.
  destruct (stack_svg_body_runs _ _ _ _ _ _ _ _ _ _ S1 S2 W1 H1 W2 H2 horizontally separator)
    as (out & E & Wo & Ho & Vo & _).
  eexists out, _, _. repeat split; try eassumption.
  destruct horizontally.
  - apply viewBox_keeps_pt_width.
  - apply viewBox_keeps_pt_height.
Qed.

(** The scenario's documents stacked vertically with a separator. *)
Lemma stack_svg_viewBox_scenario :
  exists out W H,
    stack_svg_body doc_100x50 doc_80x60 false true = Ok out
    /\ get "width" out = Some W
    /\ get "height" out = Some H
    /\ get "viewBox" out = Some ("0 0 " +:+ W +:+ " " +:+ H)
    /\ contains "pt" ("0 0 " +:+ W +:+ " " +:+ H) = true.
Proof.
  apply (stack_svg_viewBox doc_100x50 doc_80x60
           "100pt" "50pt" "80pt" "60pt" 100 50 80 60 false true);
    vm_compute; reflexivity.
Defined.

(** C2, on the scenario's documents. The claim asks for the viewBox
    ["0 0 100 110.0"], the numbers without their units; the code writes
    ["0 0 100pt 110.0pt"], with the ["pt"] of both attributes in it. *)
Lemma stack_svg_viewBox_keeps_units :
  exists out,
    stack_svg_body doc_100x50 doc_80x60 false false = Ok out
    /\ get "viewBox" out = Some "0 0 100pt 110.0pt"
    /\ contains "pt" "0 0 100pt 110.0pt" = true
    /\ get "viewBox" out <> Some "0 0 100 110.0"
    /\ get "viewBox" out <> Some "0 0 100 110".
Proof.
  eexists. split; [vm_compute; reflexivity|].
  repeat split; try (vm_compute; reflexivity); vm_compute; discriminate.
Qed.

(** ** The separator *)



End StackFacts.

(* ===================================================================== *)
(** * Rescaling *)
(* ===================================================================== *)

Module RescaleFacts.
Import Py Svg Utils PyFacts StackFacts.

Lemma width_sized (size_text : float -> string) (w h : float) (e : element) :
  width (append e (SVGFigure_sized size_text w h)) = Some (size_text w).
Proof.
  unfold width, SVGFigure_sized. rewrite get_append.
  rewrite get_set_ne by discriminate. apply get_set_eq.
Qed.

Lemma height_sized (size_text : float -> string) (w h : float) (e : element) :
  height (append e (SVGFigure_sized size_text w h)) = Some (size_text h).
Proof. unfold height, SVGFigure_sized. rewrite get_append. apply get_set_eq. Qed.

(** With both sizes readable up to their first ['.'], the body runs to its
    end and declares their products with the scale. *)
Lemma rescale_body_runs (size_text : float -> string) (original : figure)
    (w h scale : float) :
  split_float (width original) = Ok w ->
  split_float (height original) = Ok h ->
  exists out,
    rescale_body size_text original scale = Ok out
    /\ width out = Some (size_text (fmul w scale))
    /\ height out = Some (size_text (fmul h scale))
    /\ children out = [scale_xy (Float scale) (Float scale) (getroot original)].
Proof.
  intros Hw Hh. unfold rescale_body. rewrite Hw, Hh. cbn [mbind result_bind bind].
  eexists. split; [reflexivity|].
  rewrite width_sized, height_sized. repeat split.
Qed.

(** C4 (as amended). When the width and height texts of a document, cut at
    their first ['.'], read as the floats [w] and [h], rescaling by [1.0]
    gives a document that declares exactly [w] by [h]: the original size
    without whatever followed the first ['.']. *)
Theorem rescale_unit_scale (size_text : float -> string) (original : figure)
    (w h : float) :
  split_float (width original) = Ok w ->
  split_float (height original) = Ok h ->
  exists out,
    rescale_body size_text original 1%float = Ok out
    /\ width out = Some (size_text w)
    /\ height out = Some (size_text h).
Proof.
  intros Hw Hh.
  destruct (rescale_body_runs size_text original w h 1%float Hw Hh)
    as (out & E & Wo & Ho & _).
  exists out. rewrite !fmul_one_r in *. auto.
Qed.

(** ["432.5px"] by ["300.25px"] at scale [1.0]: [432.0] by [300.0]. *)
Lemma rescale_unit_scale_432 :
  exists out,
    rescale_body px_text doc_432_5 1%float = Ok out
    /\ width out = Some (px_text 432)
    /\ height out = Some (px_text 300).
Proof.
  apply (rescale_unit_scale px_text doc_432_5 432 300); vm_compute; reflexivity.
Defined.

(** C4 as the spec words it fails on ["432.5px"]: the rescaled document
    declares [432.0], half a pixel less than the [432.5] of the original. *)
Lemma rescale_unit_scale_drops_fraction :
  exists out,
    rescale_body px_text doc_432_5 1%float = Ok out
    /\ width doc_432_5 = Some "432.5px"
    /\ width out = Some "432.0px"
    /\ declared_magnitude "432.5px" = Ok 432.5%float
    /\ declared_magnitude "432.0px" = Ok 432%float
    /\ fgt 432.5 (fadd 432 0.25) = true.
Proof.
  eexists. split; [vm_compute; reflexivity|].
  repeat split; vm_compute; reflexivity.
Qed.

(** On the size the source's own comment gives as its example, ["600px"],
    there is no ['.'] to cut at and [float] refuses the unit. *)
Lemma rescale_600px_raises :
  rescale_body px_text doc_600px 1%float
  = Raise (ValueError "could not convert string to float: '600px'").
Proof. vm_compute. reflexivity. Qed.





End RescaleFacts.

(* ===================================================================== *)
(** * From text to text *)
(* ===================================================================== *)

Module TextFacts.
Import Py Svg Utils PyFacts.

Section Text.
Variable fromstring : string -> result figure.
Variable to_str : figure -> list byte.
Variable size_text : float -> string.

(** [stack_svg] parses, runs its body and writes the document out. *)
Lemma stack_svg_parsed (svg1 svg2 : string) (fig1 fig2 : figure)
    (horizontally separator : bool) :
  fromstring svg1 = Ok fig1 ->
  fromstring svg2 = Ok fig2 ->
  stack_svg fromstring to_str svg1 svg2 horizontally separator
  = (stack_svg_body fig1 fig2 horizontally separator ≫= (fun fig => Ok (to_str fig))).
Proof. intros E1 E2. unfold stack_svg. rewrite E1, E2. reflexivity. Qed.

(** Text that does not parse stops [stack_svg] with the parser's error. *)
Lemma stack_svg_unparsed (svg1 svg2 : string) (e : exn) (horizontally separator : bool) :
  fromstring svg1 = Raise e ->
  stack_svg fromstring to_str svg1 svg2 horizontally separator = Raise e.
Proof. intros E. unfold stack_svg. rewrite E. reflexivity. Qed.

Lemma rescale_parsed (svg : string) (original : figure) (scale : float) :
  fromstring svg = Ok original ->
  rescale fromstring to_str size_text svg scale
  = (rescale_body size_text original scale ≫= (fun out => Ok (decode_utf8 (to_str out)))).
Proof. intros E. unfold rescale. rewrite E. reflexivity. Qed.

(** Two passes over text are two passes over documents when the parser
    reads back what was written. *)
Lemma rescale_twice_parsed (svg : string) (original mid : figure) (k k' : float) :
  fromstring svg = Ok original ->
  rescale_body size_text original k = Ok mid ->
  fromstring (decode_utf8 (to_str mid)) = Ok mid ->
  (rescale fromstring to_str size_text svg k
     ≫= (fun text => rescale fromstring to_str size_text text k'))
  = (rescale_body size_text mid k' ≫= (fun out => Ok (decode_utf8 (to_str out)))).
Proof.
  intros E B R. rewrite (rescale_parsed svg original k E), B.
  cbn [mbind result_bind bind]. apply rescale_parsed. exact R.
Qed.

End Text.

End TextFacts.

(* ===================================================================== *)
(** * The record of a plot *)
(* ===================================================================== *)

Module EnvelopeFacts.
Import Py Utils PyFacts.

Section Envelope.
Variable MplFigure : Type.
Variable set_size_inches : Z -> Z -> MplFigure -> MplFigure.
Variable suptitle : string -> MplFigure -> MplFigure.
Variable savefig : MplFigure -> string.
Variable fcompress : list byte -> string -> list byte.
Variable decompress_str : list byte -> result string.


(** The record before the [svg] keys are written holds none of them. *)
Lemma header_lookup (file_name : string) (title : option string)
    (tags : option (list string)) (k : string) :
  k <> "name" -> k <> "tag" -> k <> "title" ->
  (let ret : gmap string value := {[ "name" := VStr file_name ]} in
   let ret := if truthy_list tags then <[ "tag" := VList (default [] tags) ]> ret else ret in
   if truthy_str title then <[ "title" := VStr (default EmptyString title) ]> ret else ret)
  !! k = None.
Proof.
  intros N1 N2 N3. cbn zeta.
  destruct (truthy_str title), (truthy_list tags);
    repeat (rewrite lookup_insert_ne by congruence);
    apply lookup_singleton_ne; congruence.
Qed.

(** C6. With [compress=0] the [svg] value is the text the figure was saved
    as; with [compress=1] it is that text compressed and there is no
    [svg_str] key; with [compress=2] it is that text compressed and
    [svg_str] is the text itself. *)
Theorem mplfig_to_svg_dict_modes (mpl_fig : MplFigure) (file_name : string)
    (title : option string) (tags : option (list string))
    (w h : option Z) (fig_include_title : option bool)
    (to_svg_dict := mplfig_to_svg_dict MplFigure set_size_inches suptitle savefig fcompress) :
  let text :=
    savefig (staged MplFigure set_size_inches suptitle mpl_fig title w h fig_include_title) in
  let packed := fcompress (encode_utf8 text) file_name in
    to_svg_dict mpl_fig file_name title tags 0 w h fig_include_title !! "svg"
      = Some (VStr text)
    /\ to_svg_dict mpl_fig file_name title tags 1 w h fig_include_title !! "svg"
       = Some (VBytes packed)
    /\ to_svg_dict mpl_fig file_name title tags 1 w h fig_include_title !! "svg_str"
       = None
    /\ to_svg_dict mpl_fig file_name title tags 2 w h fig_include_title !! "svg"
       = Some (VBytes packed)
    /\ to_svg_dict mpl_fig file_name title tags 2 w h fig_include_title !! "svg_str"
       = Some (VStr text).
Proof.
  subst to_svg_dict. unfold mplfig_to_svg_dict.
  change (0 =? 0) with true; change (1 =? 0) with false; change (2 =? 0) with false.
  change (1 =? 2) with false; change (2 =? 2) with true.
  cbn zeta. repeat split.
  - apply lookup_insert_eq.
  - apply lookup_insert_eq.
  - rewrite lookup_insert_ne by discriminate. apply header_lookup; discriminate.
  - rewrite lookup_insert_ne by discriminate. apply lookup_insert_eq.
  - apply lookup_insert_eq.
Qed.

(** C10. Any [compress] other than [0] is accepted: [svg] holds the saved
    text, compressed; [svg_str] is there exactly when [compress] is [2], and
    then holds the saved text; and every value other than [0] and [2] gives
    the record of [compress=1]. *)
Theorem mplfig_to_svg_dict_other_modes (mpl_fig : MplFigure) (file_name : string)
    (title : option string) (tags : option (list string)) (compress : Z)
    (w h : option Z) (fig_include_title : option bool)
    (to_svg_dict := mplfig_to_svg_dict MplFigure set_size_inches suptitle savefig fcompress) :
  compress <> 0 ->
  let text :=
    savefig (staged MplFigure set_size_inches suptitle mpl_fig title w h fig_include_title) in
  let ret := to_svg_dict mpl_fig file_name title tags compress w h fig_include_title in
  ret !! "svg" = Some (VBytes (fcompress (encode_utf8 text) file_name))
  /\ ret !! "svg_str" = (if compress =? 2 then Some (VStr text) else None)
  /\ (is_Some (ret !! "svg_str") <-> compress = 2)
  /\ (compress <> 2 ->
      ret = to_svg_dict mpl_fig file_name title tags 1 w h fig_include_title).
Proof.
  intros Hc text ret. subst ret to_svg_dict. unfold mplfig_to_svg_dict. fold text.
  destruct (Z.eqb_spec compress 0) as [|_]; [contradiction|].
  change (1 =? 0) with false; change (1 =? 2) with false. cbn zeta.
  destruct (Z.eqb_spec compress 2) as [->|Hn].
  - split; [rewrite lookup_insert_ne by discriminate; apply lookup_insert_eq|].
    split; [apply lookup_insert_eq|].
    split; [|intros C; contradiction].
    split; [reflexivity|]. intros _. rewrite lookup_insert_eq. eauto.
  - assert (N : (<[ "svg" := VBytes (fcompress (encode_utf8 text) file_name) ]>
                   (if truthy_str title
                    then <[ "title" := VStr (default EmptyString title) ]>
                           (if truthy_list tags
                            then <[ "tag" := VList (default [] tags) ]>
                                   ({[ "name" := VStr file_name ]} : gmap string value)
                            else {[ "name" := VStr file_name ]})
                    else if truthy_list tags
                         then <[ "tag" := VList (default [] tags) ]>
                                ({[ "name" := VStr file_name ]} : gmap string value)
                         else {[ "name" := VStr file_name ]})) !! "svg_str" = None).
    { rewrite lookup_insert_ne by discriminate.
      apply (header_lookup file_name title tags "svg_str"); discriminate. }
    split; [apply lookup_insert_eq|].
    split; [exact N|].
    split; [|reflexivity].
    split; [|intros C; contradiction].
    rewrite N. intros [? C]. discriminate C.
Qed.

(** C7. Decompressing a second time changes nothing, whether the first
    call returned or raised; on a record whose [svg] is already text the
    call returns the record as it was; on one whose [svg] is bytes that
    decompress to [s] it returns the record with [s] in their place. *)
Theorem decompress_svg_dict_idempotent (svg_dict : pyobj)
    (decompress := decompress_svg_dict decompress_str) :
  (decompress svg_dict ≫= (fun d => decompress (Dict d))) = decompress svg_dict
  /\ (forall d s, svg_dict = Dict d -> d !! "svg" = Some (VStr s) ->
        decompress svg_dict = Ok d)
  /\ (forall d b s, svg_dict = Dict d -> d !! "svg" = Some (VBytes b) ->
        decompress_str b = Ok s ->
        decompress svg_dict = Ok (<[ "svg" := VStr s ]> d)
        /\ decompress (Dict (<[ "svg" := VStr s ]> d)) = Ok (<[ "svg" := VStr s ]> d)).
Proof.
  subst decompress. split; [|split].
  - destruct svg_dict as [d|v]; cbn [decompress_svg_dict]; [|reflexivity].
    destruct (d !! "svg") as [[| | | |b|]|] eqn:E; cbn [mbind result_bind bind decompress_svg_dict];
      rewrite ?E; try reflexivity.
    destruct (decompress_str b) as [s|e]; cbn [mbind result_bind bind decompress_svg_dict];
      [|reflexivity].
    rewrite lookup_insert_eq. reflexivity.
  - intros d s -> E. cbn [decompress_svg_dict]. rewrite E. reflexivity.
  - intros d b s -> E D. cbn [decompress_svg_dict]. rewrite E, D.
    cbn [mbind result_bind bind]. rewrite lookup_insert_eq. split; reflexivity.
Qed.

(** C8. Anything that is not a dict is refused with the [ValueError] the
    function raises itself, before the record is looked into. *)
Theorem decompress_svg_dict_rejects_non_dict (v : value) :
  decompress_svg_dict decompress_str (Plain v)
  = Raise (ValueError "Parameter svg_dict must be an instance of dict")
  /\ (forall msg, decompress_svg_dict decompress_str (Plain v) <> Raise (TypeError msg))
  /\ (forall d, decompress_svg_dict decompress_str (Plain v) <> Ok d).
Proof. repeat split; intros; discriminate. Qed.

End Envelope.

(** A record compressed by a stand-in pair (reversing the bytes),
    decompressed once and twice. *)
Lemma decompress_svg_dict_twice_example :
  let decompress := decompress_svg_dict (fun b => Ok (decode_utf8 (rev b))) in
  let d : gmap string value :=
    {[ "name" := VStr "plot.svg"; "svg" := VBytes (rev (encode_utf8 "<svg/>")) ]} in
  (decompress (Dict d) ≫= (fun d' => decompress (Dict d'))) = decompress (Dict d)
  /\ decompress (Dict d) = Ok (<[ "svg" := VStr "<svg/>" ]> d).
Proof.
  intros decompress d.
  destruct (decompress_svg_dict_idempotent (fun b => Ok (decode_utf8 (rev b))) (Dict d))
    as (I & _ & B).
  split; [exact I|].
  apply (B d (rev (encode_utf8 "<svg/>")) "<svg/>"); reflexivity.
Defined.

(** The unrecognized mode [3] of C10, run with stand-in collaborators. *)
Lemma mplfig_to_svg_dict_mode_3 :
  let to_svg_dict := mplfig_to_svg_dict unit (fun _ _ f => f) (fun _ f => f)
                       (fun _ => "<svg/>") (fun b _ => rev b) in
  let ret := to_svg_dict tt "plot.svg" None None 3 None None None in
  ret !! "svg" = Some (VBytes (rev (encode_utf8 "<svg/>")))
  /\ ret !! "svg_str" = None
  /\ (is_Some (ret !! "svg_str") <-> 3 = 2)
  /\ (3 <> 2 -> ret = to_svg_dict tt "plot.svg" None None 1 None None None).
Proof.
  apply (mplfig_to_svg_dict_other_modes unit (fun _ _ f => f) (fun _ f => f)
           (fun _ => "<svg/>") (fun b _ => rev b) tt "plot.svg" None None 3 None None None).
  discriminate.
Defined.

End EnvelopeFacts.

(* ===================================================================== *)
(** * Rasterizing *)
(* ===================================================================== *)

Module RasterFacts.
Import Py Utils PyFacts.

(** C9. When the rasterizer returns the bytes [png], [to_png] returns the
    image tag around their base64 text: it starts with the opening of the
    tag up to [base64,] and ends with the closing quote and bracket. *)
Theorem to_png_image_tag (svg2png : string -> Z -> result (list byte))
    (content : string) (dpi : Z) (png : list byte) :
  svg2png content dpi = Ok png ->
  exists tag,
    to_png svg2png content dpi = Ok tag
    /\ tag = img_prefix +:+ decode_utf8 (b64encode png) +:+ img_suffix
    /\ startswith img_prefix tag = true
    /\ endswith img_suffix tag = true.
Proof.
  intros E. unfold to_png. rewrite E. cbn [mbind result_bind bind].
  eexists. split; [reflexivity|].
  assert (T : "<img src=" +:+ dquote +:+ "data:image/png;base64,"
                +:+ decode_utf8 (b64encode (Image_data png)) +:+ dquote +:+ ">"
              = img_prefix +:+ decode_utf8 (b64encode png) +:+ img_suffix).
  { unfold img_prefix, img_suffix, Image_data. rewrite !app_assoc_str. reflexivity. }
  rewrite T. split; [reflexivity|]. split.
  - apply startswith_app.
  - rewrite <- app_assoc_str. apply endswith_app.
Qed.

(** The tag around the eight bytes of the PNG signature. *)
Lemma to_png_signature :
  exists tag,
    to_png (fun _ _ => Ok png_signature) "<svg/>" 96 = Ok tag
    /\ tag = img_prefix +:+ decode_utf8 (b64encode png_signature) +:+ img_suffix
    /\ startswith img_prefix tag = true
    /\ endswith img_suffix tag = true.
Proof.
  apply (to_png_image_tag (fun _ _ => Ok png_signature) "<svg/>" 96 png_signature).
  reflexivity.
Defined.

Example to_png_signature_text :
  to_png (fun _ _ => Ok png_signature) "<svg/>" 96
  = Ok (img_prefix +:+ "iVBORw0KGgo=" +:+ img_suffix).
Proof. vm_compute. reflexivity. Qed.

End RasterFacts.

(* ===================================================================== *)
(** * base64 text *)
(* ===================================================================== *)

Module B64Facts.
Import Py.
Local Open Scope N_scope.

(** ** Three bytes as one number *)

Lemma lor_shiftl_small (x c k : N) : c < 2 ^ k -> N.lor (N.shiftl x k) c = x * 2 ^ k + c.
Proof.
  intros Hc.
  assert (L : N.land (N.shiftl x k) c = 0).
  { apply N.bits_inj_0. intros i. rewrite N.land_spec.
    destruct (N.lt_ge_cases i k) as [Hi|Hi].
    - rewrite N.shiftl_spec_low by assumption. reflexivity.
    - rewrite <- (N.mod_small c (2 ^ k)) by assumption.
      rewrite N.mod_pow2_bits_high by assumption. apply andb_false_r. }
  rewrite <- N.lxor_lor, <- N.add_nocarry_lxor by assumption.
  rewrite N.shiftl_mul_pow2. reflexivity.
Qed.

Lemma to_N_lt (b : byte) : Byte.to_N b < 256.
Proof. pose proof (Byte.to_N_bounded b). lia. Qed.

Lemma to_N_inj (a b : byte) : Byte.to_N a = Byte.to_N b -> a = b.
Proof.
  intros H. pose proof (Byte.of_to_N a) as Ha. pose proof (Byte.of_to_N b) as Hb.
  rewrite H in Ha. congruence.
Qed.

Lemma lor_mul_small (x c k : N) : c < 2 ^ k -> N.lor (x * 2 ^ k) c = x * 2 ^ k + c.
Proof.
  intros H. rewrite <- (lor_shiftl_small x c k H), N.shiftl_mul_pow2. reflexivity.
Qed.

Lemma pack_sum (a b c : byte) :
  pack a b c = Byte.to_N a * 65536 + Byte.to_N b * 256 + Byte.to_N c.
Proof.
  unfold pack. pose proof (to_N_lt a). pose proof (to_N_lt b). pose proof (to_N_lt c).
  rewrite !N.shiftl_mul_pow2.
  rewrite (lor_mul_small (Byte.to_N a) (Byte.to_N b * 2 ^ 8) 16)
    by (change (2 ^ 8) with 256; change (2 ^ 16) with 65536; lia).
  change (2 ^ 16) with (2 ^ 8 * 2 ^ 8).
  replace (Byte.to_N a * (2 ^ 8 * 2 ^ 8) + Byte.to_N b * 2 ^ 8)
    with ((Byte.to_N a * 2 ^ 8 + Byte.to_N b) * 2 ^ 8) by lia.
  rewrite lor_mul_small by (change (2 ^ 8) with 256; assumption).
  change (2 ^ 8) with 256. lia.
Qed.

Lemma sextet_div (n k : N) : sextet n k = (n / 2 ^ k) mod 64.
Proof.
  unfold sextet. rewrite N.shiftr_div_pow2.
  change 63 with (N.ones 6). rewrite N.land_ones. reflexivity.
Qed.

Lemma sextets_sum (x : N) :
  x < 16777216 ->
  x = sextet x 18 * 262144 + sextet x 12 * 4096 + sextet x 6 * 64 + sextet x 0.
Proof.
  rewrite !sextet_div.
  change (2 ^ 18) with 262144. change (2 ^ 12) with 4096. change (2 ^ 6) with 64.
  change (2 ^ 0) with 1. intros.
  zify; Z.to_euclidean_division_equations; lia.
Qed.

Lemma sextets_inj (x y : N) :
  x < 16777216 -> y < 16777216 ->
  sextet x 18 = sextet y 18 -> sextet x 12 = sextet y 12 ->
  sextet x 6 = sextet y 6 -> sextet x 0 = sextet y 0 -> x = y.
Proof.
  intros Hx Hy E1 E2 E3 E4.
  rewrite (sextets_sum x Hx), (sextets_sum y Hy). congruence.
Qed.

Lemma in_sixty_four (n : N) : n < 64 -> In n sixty_four.
Proof.
  intros H. unfold sixty_four. rewrite <- (N2Nat.id n). apply in_map.
  apply in_seq. lia.
Qed.

Lemma land63_lt (n : N) : N.land n 63 < 64.
Proof.
  change 63 with (N.ones 6). rewrite N.land_ones. apply N.mod_lt. discriminate.
Qed.

Lemma b64_char_land (n : N) : b64_char n = b64_char (N.land n 63).
Proof.
  unfold b64_char. rewrite <- N.land_assoc. reflexivity.
Qed.

Lemma b64_char_table :
  forallb (fun i => forallb (fun j => implb (Byte.eqb (b64_char i) (b64_char j)) (N.eqb i j))
                      sixty_four
                    && negb (Byte.eqb (b64_char i) b64_pad))
    sixty_four = true.
Proof. vm_compute. reflexivity. Qed.

Lemma b64_char_inj (n m : N) : b64_char n = b64_char m -> N.land n 63 = N.land m 63.
Proof.
  rewrite (b64_char_land n), (b64_char_land m). intros E.
  pose proof b64_char_table as T. rewrite forallb_forall in T.
  specialize (T _ (in_sixty_four _ (land63_lt n))).
  apply andb_true_iff in T as [T _]. rewrite forallb_forall in T.
  specialize (T _ (in_sixty_four _ (land63_lt m))).
  rewrite E in T. rewrite (Byte.byte_dec_lb eq_refl) in T. cbn [implb] in T.
  now apply N.eqb_eq in T.
Qed.

Lemma b64_char_not_pad (n : N) : b64_char n <> b64_pad.
Proof.
  rewrite (b64_char_land n). intros E.
  pose proof b64_char_table as T. rewrite forallb_forall in T.
  specialize (T _ (in_sixty_four _ (land63_lt n))).
  apply andb_true_iff in T as [_ T]. rewrite E, (Byte.byte_dec_lb eq_refl) in T. discriminate T.
Qed.

(** The four characters of a group of three bytes. *)
Lemma sextet_char (n k : N) : b64_char (N.shiftr n k) = b64_char (sextet n k).
Proof. unfold sextet. apply b64_char_land. Qed.

Lemma b64_char_sextet_inj (x y k : N) :
  b64_char (N.shiftr x k) = b64_char (N.shiftr y k) -> sextet x k = sextet y k.
Proof.
  intros E. apply b64_char_inj in E. exact E.
Qed.

Lemma pack_lt (a b c : byte) : pack a b c < 16777216.
Proof.
  rewrite pack_sum. pose proof (to_N_lt a). pose proof (to_N_lt b). pose proof (to_N_lt c). lia.
Qed.

Lemma pack_inj (a b c a' b' c' : byte) :
  pack a b c = pack a' b' c' -> a = a' /\ b = b' /\ c = c'.
Proof.
  rewrite !pack_sum. intros E.
  pose proof (to_N_lt a). pose proof (to_N_lt b). pose proof (to_N_lt c).
  pose proof (to_N_lt a'). pose proof (to_N_lt b'). pose proof (to_N_lt c').
  repeat split; apply to_N_inj; lia.
Qed.

Lemma pack_low_0 (a b : byte) : sextet (pack a b x00) 0 = 0.
Proof.
  rewrite sextet_div, pack_sum. change (Byte.to_N x00) with 0. change (2 ^ 0) with 1.
  pose proof (to_N_lt a). pose proof (to_N_lt b).
  zify; Z.to_euclidean_division_equations; lia.
Qed.

Lemma pack_mid_0 (a : byte) : sextet (pack a x00 x00) 6 = 0.
Proof.
  rewrite sextet_div, pack_sum. change (Byte.to_N x00) with 0. change (2 ^ 6) with 64.
  pose proof (to_N_lt a).
  zify; Z.to_euclidean_division_equations; lia.
Qed.

Lemma encode_1 (a : byte) :
  b64encode [a]
  = [b64_char (N.shiftr (pack a x00 x00) 18); b64_char (N.shiftr (pack a x00 x00) 12);
     b64_pad; b64_pad].
Proof.
  unfold pack. change (Byte.to_N x00) with 0. rewrite N.shiftl_0_l, !N.lor_0_r. reflexivity.
Qed.

Lemma encode_2 (a b : byte) :
  b64encode [a; b]
  = [b64_char (N.shiftr (pack a b x00) 18); b64_char (N.shiftr (pack a b x00) 12);
     b64_char (N.shiftr (pack a b x00) 6); b64_pad].
Proof.
  unfold pack. change (Byte.to_N x00) with 0. rewrite !N.lor_0_r. reflexivity.
Qed.

Lemma encode_3 (a b c : byte) (rest : list byte) :
  b64encode (a :: b :: c :: rest)
  = b64_char (N.shiftr (pack a b c) 18) :: b64_char (N.shiftr (pack a b c) 12)
      :: b64_char (N.shiftr (pack a b c) 6) :: b64_char (N.shiftr (pack a b c) 0)
      :: b64encode rest.
Proof. reflexivity. Qed.

Lemma quad_inj (a b c a' b' c' : byte) :
  sextet (pack a b c) 18 = sextet (pack a' b' c') 18 ->
  sextet (pack a b c) 12 = sextet (pack a' b' c') 12 ->
  sextet (pack a b c) 6 = sextet (pack a' b' c') 6 ->
  sextet (pack a b c) 0 = sextet (pack a' b' c') 0 ->
  a = a' /\ b = b' /\ c = c'.
Proof.
  intros. apply pack_inj, sextets_inj; auto using pack_lt.
Qed.

Lemma b64encode_inj_le (n : nat) (xs ys : list byte) :
  (length xs <= n)%nat -> b64encode xs = b64encode ys -> xs = ys.
Proof.
  revert xs ys. induction n as [|n IH]; intros xs ys L E.
  - destruct xs; [|cbn in L; lia].
    destruct ys as [|a [|b [|c r]]]; [reflexivity|discriminate E..].
  - destruct xs as [|a [|b [|c r]]], ys as [|a' [|b' [|c' r']]];
      rewrite ?encode_1, ?encode_2, ?encode_3 in E;
      try reflexivity; try discriminate E;
      injection E; clear E; intros;
      repeat match goal with
        | H : b64_char _ = b64_pad |- _ => exfalso; exact (b64_char_not_pad _ H)
        | H : b64_pad = b64_char _ |- _ => exfalso; exact (b64_char_not_pad _ (eq_sym H))
        | H : b64_char (N.shiftr _ _) = b64_char (N.shiftr _ _) |- _ =>
            apply b64_char_sextet_inj in H
        end.
    + destruct (quad_inj a x00 x00 a' x00 x00) as (-> & _ & _);
        rewrite ?pack_mid_0, ?pack_low_0; auto.
    + destruct (quad_inj a b x00 a' b' x00) as (-> & -> & _);
        rewrite ?pack_low_0; auto.
    + destruct (quad_inj a b c a' b' c') as (-> & -> & ->); auto.
      f_equal. f_equal. f_equal. apply IH; [cbn in L; lia | assumption].
Qed.

Lemma b64encode_inj (xs ys : list byte) : b64encode xs = b64encode ys -> xs = ys.
Proof. apply (b64encode_inj_le (length xs)). lia. Qed.

(** ** What the text is made of *)

Lemma b64_symbol_table :
  forallb (fun i => b64_symbol (b64_char i)) sixty_four = true.
Proof. vm_compute. reflexivity. Qed.

Lemma b64_char_symbol (n : N) : b64_symbol (b64_char n) = true.
Proof.
  rewrite (b64_char_land n). pose proof b64_symbol_table as T.
  rewrite forallb_forall in T. apply T, in_sixty_four, land63_lt.
Qed.

Lemma b64encode_symbols_le (n : nat) (bs : list byte) :
  (length bs <= n)%nat -> forallb b64_symbol (b64encode bs) = true.
Proof.
  revert bs. induction n as [|n IH]; intros bs L.
  - destruct bs; [reflexivity|cbn in L; lia].
  - destruct bs as [|a [|b [|c r]]]; cbn [b64encode forallb];
      rewrite ?b64_char_symbol; try reflexivity.
    cbn [andb]. apply IH. cbn in L. lia.
Qed.

Lemma b64encode_symbols (bs : list byte) : forallb b64_symbol (b64encode bs) = true.
Proof. apply (b64encode_symbols_le (length bs)). lia. Qed.

Lemma b64encode_length_le (n : nat) (bs : list byte) :
  (length bs <= n)%nat ->
  length (b64encode bs) = (4 * ((length bs + 2) / 3))%nat.
Proof.
  revert bs. induction n as [|n IH]; intros bs L.
  - destruct bs; [reflexivity|cbn in L; lia].
  - destruct bs as [|a [|b [|c r]]]; try reflexivity.
    cbn [b64encode length]. rewrite IH by (cbn in L; lia).
    replace (S (S (S (length r))) + 2)%nat with (length r + 2 + 1 * 3)%nat by lia.
    rewrite Nat.div_add by discriminate. lia.
Qed.

Lemma b64encode_length (bs : list byte) :
  length (b64encode bs) = (4 * ((length bs + 2) / 3))%nat.
Proof. apply (b64encode_length_le (length bs)). lia. Qed.

End B64Facts.

(* ===================================================================== *)
(** * The image tag, further *)
(* ===================================================================== *)

Module RasterMore.
Import Py Utils PyFacts B64Facts.

Lemma append_inv_head (p x y : string) : p +:+ x = p +:+ y -> x = y.
Proof.
  induction p as [|c p IH]; [auto|].
  change (String c (p +:+ x) = String c (p +:+ y) -> x = y). intros [= E]. auto.
Qed.

Lemma length_append (a b : string) :
  String.length (a +:+ b) = (String.length a + String.length b)%nat.
Proof.
  induction a as [|c a IH]; [reflexivity|].
  change (S (String.length (a +:+ b)) = S (String.length a + String.length b)).
  now rewrite IH.
Qed.

Lemma append_inv_tail (x y s : string) : x +:+ s = y +:+ s -> x = y.
Proof.
  revert y. induction x as [|c x IH]; intros y E.
  - destruct y as [|d y]; [reflexivity|]. exfalso.
    apply (f_equal String.length) in E. rewrite !length_append in E.
    cbn [String.length] in E. lia.
  - destruct y as [|d y].
    + exfalso. apply (f_equal String.length) in E. rewrite !length_append in E.
      cbn [String.length] in E. lia.
    + change (String c (x +:+ s) = String d (y +:+ s)) in E.
      injection E as -> E. f_equal. auto.
Qed.

Lemma length_decode_utf8 (b : list byte) : String.length (decode_utf8 b) = length b.
Proof.
  unfold decode_utf8. induction b as [|x b IH]; [reflexivity|].
  cbn. f_equal. exact IH.
Qed.

Lemma decode_utf8_inj (a b : list byte) : decode_utf8 a = decode_utf8 b -> a = b.
Proof.
  unfold decode_utf8. intros E. apply (f_equal list_byte_of_string) in E.
  now rewrite !list_byte_of_string_of_list_byte in E.
Qed.

Lemma to_png_ok (svg2png : string -> Z -> result (list byte)) (content : string)
    (dpi : Z) (png : list byte) :
  svg2png content dpi = Ok png ->
  to_png svg2png content dpi
  = Ok (img_prefix +:+ decode_utf8 (b64encode png) +:+ img_suffix).
Proof.
  intros E. unfold to_png. rewrite E. cbn [mbind result_bind bind].
  unfold img_prefix, img_suffix, Image_data. rewrite !app_assoc_str. reflexivity.
Qed.

(** X16. [to_png] returns exactly when the rasterizer does, and then the
    tag around the base64 text of its bytes; an exception of the rasterizer
    comes out unchanged, and [to_png] raises nothing of its own. *)
Theorem to_png_outcome (svg2png : string -> Z -> result (list byte)) (content : string)
    (dpi : Z) :
  (forall tag, to_png svg2png content dpi = Ok tag
     <-> exists png, svg2png content dpi = Ok png
                     /\ tag = img_prefix +:+ decode_utf8 (b64encode png) +:+ img_suffix)
  /\ (forall e, to_png svg2png content dpi = Raise e <-> svg2png content dpi = Raise e).
Proof.
  destruct (svg2png content dpi) as [png|e0] eqn:E.
  - rewrite (to_png_ok _ _ _ _ E). split.
    + intros tag. split; [intros [= <-]; eauto|intros (p & [= <-] & ->); reflexivity].
    + intros e. split; discriminate.
  - unfold to_png. rewrite E. cbn [mbind result_bind bind]. split.
    + intros tag. split; [discriminate|intros (p & D & _); discriminate D].
    + intros e. split; intros [= <-]; reflexivity.
Qed.

(** X17. The text between the two ends of the tag is made of the letters,
    digits, [+], [/] and [=] of base64 only, so no quote can end the
    attribute early, and it is four characters for every three bytes of
    the image, the last group filled up. *)
Theorem to_png_data_text (svg2png : string -> Z -> result (list byte)) (content : string)
    (dpi : Z) (png : list byte) :
  svg2png content dpi = Ok png ->
  exists data,
    to_png svg2png content dpi = Ok (img_prefix +:+ data +:+ img_suffix)
    /\ forallb b64_symbol (encode_utf8 data) = true
    /\ String.length data = (4 * ((length png + 2) / 3))%nat.
Proof.
  intros E. exists (decode_utf8 (b64encode png)). split; [now apply to_png_ok|].
  unfold encode_utf8, decode_utf8 at 1. rewrite list_byte_of_string_of_list_byte.
  split; [apply b64encode_symbols|].
  rewrite length_decode_utf8. apply b64encode_length.
Qed.

(** X18. The tag determines the image: two calls that return the same tag
    were given the same bytes by their rasterizers. *)
Theorem to_png_injective (svg2png svg2png' : string -> Z -> result (list byte))
    (content content' : string) (dpi dpi' : Z) (png png' : list byte) :
  svg2png content dpi = Ok png ->
  svg2png' content' dpi' = Ok png' ->
  to_png svg2png content dpi = to_png svg2png' content' dpi' ->
  png = png'.
Proof.
  intros E E' T. rewrite (to_png_ok _ _ _ _ E), (to_png_ok _ _ _ _ E') in T.
  injection T as T. apply append_inv_head, append_inv_tail in T.
  apply b64encode_inj, decode_utf8_inj, T.
Qed.

(** The eight bytes of the PNG signature make twelve characters. *)
Lemma to_png_data_text_signature :
  exists data,
    to_png (fun _ _ => Ok png_signature) "<svg/>" 96
    = Ok (img_prefix +:+ data +:+ img_suffix)
    /\ forallb b64_symbol (encode_utf8 data) = true
    /\ String.length data = 12%nat.
Proof.
  apply (to_png_data_text (fun _ _ => Ok png_signature) "<svg/>" 96 png_signature).
  reflexivity.
Defined.

(** Images of one byte that differ give tags that differ. *)
Lemma to_png_injective_example :
  to_png (fun _ _ => Ok [x00]) "<svg/>" 96 <> to_png (fun _ _ => Ok [x01]) "<svg/>" 96.
Proof.
  intros T.
  apply (to_png_injective (fun _ _ => Ok [x00]) (fun _ _ => Ok [x01])
           "<svg/>" "<svg/>" 96 96 [x00] [x01] eq_refl eq_refl) in T.
  discriminate T.
Defined.

End RasterMore.

(* ===================================================================== *)
(** * The record of a plot, further *)
(* ===================================================================== *)

Module EnvelopeMore.
Import Py Utils PyFacts.

Section Envelope.
Variable MplFigure : Type.
Variable set_size_inches : Z -> Z -> MplFigure -> MplFigure.
Variable suptitle : string -> MplFigure -> MplFigure.
Variable savefig : MplFigure -> string.
Variable fcompress : list byte -> string -> list byte.
Variable decompress_str : list byte -> result string.

Lemma mplfig_to_svg_dict_header (mpl_fig : MplFigure) (file_name : string)
    (title : option string) (tags : option (list string)) (compress : Z)
    (w h : option Z) (fit : option bool) :
  let text := savefig (staged MplFigure set_size_inches suptitle mpl_fig title w h fit) in
  mplfig_to_svg_dict MplFigure set_size_inches suptitle savefig fcompress
    mpl_fig file_name title tags compress w h fit
  = if compress =? 0 then <[ "svg" := VStr text ]> (header file_name title tags)
    else if compress =? 2
         then <[ "svg_str" := VStr text ]>
                (<[ "svg" := VBytes (fcompress (encode_utf8 text) file_name) ]>
                   (header file_name title tags))
         else <[ "svg" := VBytes (fcompress (encode_utf8 text) file_name) ]>
                (header file_name title tags).
Proof. reflexivity. Qed.

Lemma header_name (file_name : string) (title : option string) (tags : option (list string)) :
  header file_name title tags !! "name" = Some (VStr file_name).
Proof.
  unfold header. cbn zeta.
  destruct (truthy_str title), (truthy_list tags);
    repeat (rewrite lookup_insert_ne by discriminate); apply lookup_singleton_eq.
Qed.

Lemma header_tag (file_name : string) (title : option string) (tags : option (list string)) :
  header file_name title tags !! "tag"
  = match tags with
    | Some (t :: ts) => Some (VList (t :: ts))
    | _ => None
    end.
Proof.
  unfold header. cbn zeta.
  destruct tags as [[|t ts]|], (truthy_str title); cbn [truthy_list default];
    repeat (rewrite lookup_insert_ne by discriminate);
    try apply lookup_insert_eq; apply lookup_singleton_ne; discriminate.
Qed.

Lemma header_title (file_name : string) (title : option string) (tags : option (list string)) :
  header file_name title tags !! "title"
  = match title with
    | Some (String c t) => Some (VStr (String c t))
    | _ => None
    end.
Proof.
  unfold header. cbn zeta.
  destruct title as [[|c t]|], (truthy_list tags); cbn [truthy_str default];
    try apply lookup_insert_eq;
    repeat (rewrite lookup_insert_ne by discriminate);
    apply lookup_singleton_ne; discriminate.
Qed.

Lemma header_keys (file_name : string) (title : option string)
    (tags : option (list string)) (k : string) :
  is_Some (header file_name title tags !! k) -> k = "name" \/ k = "tag" \/ k = "title".
Proof.
  intros [v Hv].
  destruct (decide (k = "name")) as [|N1]; [auto|].
  destruct (decide (k = "tag")) as [|N2]; [auto|].
  destruct (decide (k = "title")) as [|N3]; [auto|].
  exfalso. pose proof (EnvelopeFacts.header_lookup file_name title tags k N1 N2 N3) as L.
  unfold header in Hv. cbn zeta in L. cbn zeta in Hv. congruence.
Qed.


(** X1. Whatever the arguments, the record holds [name] with the file
    name and an [svg] value; [tag] is there exactly when the list of tags
    is not empty and [title] exactly when the title is not empty; and it
    has no key besides [name], [tag], [title], [svg] and [svg_str]. *)
Theorem mplfig_to_svg_dict_keys (mpl_fig : MplFigure) (file_name : string)
    (title : option string) (tags : option (list string)) (compress : Z)
    (w h : option Z) (fit : option bool)
    (ret := mplfig_to_svg_dict MplFigure set_size_inches suptitle savefig fcompress
              mpl_fig file_name title tags compress w h fit) :
  ret !! "name" = Some (VStr file_name)
  /\ ret !! "tag" = match tags with
                    | Some (t :: ts) => Some (VList (t :: ts))
                    | _ => None
                    end
  /\ ret !! "title" = match title with
                      | Some (String c t) => Some (VStr (String c t))
                      | _ => None
                      end
  /\ is_Some (ret !! "svg")
  /\ (forall k, is_Some (ret !! k) ->
        k = "name" \/ k = "tag" \/ k = "title" \/ k = "svg" \/ k = "svg_str").
Proof.
  subst ret. rewrite mplfig_to_svg_dict_header. cbn zeta.
  set (text := savefig _). set (hd := header file_name title tags).
  assert (Hn := header_name file_name title tags).
  assert (Ht := header_tag file_name title tags).
  assert (Hi := header_title file_name title tags).
  assert (Hk := header_keys file_name title tags).
  fold hd in Hn, Ht, Hi, Hk.
  destruct (compress =? 0); [|destruct (compress =? 2)];
    repeat (rewrite lookup_insert_ne by discriminate);
    (split; [exact Hn|]); (split; [exact Ht|]); (split; [exact Hi|]);
    (split; [rewrite ?(lookup_insert_ne _ "svg_str" "svg") by discriminate;
             rewrite lookup_insert_eq; eauto|]);
    intros k Hs;
    repeat (apply lookup_insert_is_Some in Hs as [<-|[_ Hs]]; [tauto|]);
    apply Hk in Hs; tauto.
Qed.

(** X2. With a decompressor that undoes the compressor on the saved text,
    decompressing the record of any mode gives the record of mode [0];
    after mode [2] it also still holds [svg_str], equal to [svg]. *)
Theorem decompress_after_mplfig (mpl_fig : MplFigure) (file_name : string)
    (title : option string) (tags : option (list string)) (compress : Z)
    (w h : option Z) (fit : option bool)
    (text := savefig (staged MplFigure set_size_inches suptitle mpl_fig title w h fit))
    (plain := mplfig_to_svg_dict MplFigure set_size_inches suptitle savefig fcompress
                mpl_fig file_name title tags 0 w h fit) :
  decompress_str (fcompress (encode_utf8 text) file_name) = Ok text ->
  decompress_svg_dict decompress_str
    (Dict (mplfig_to_svg_dict MplFigure set_size_inches suptitle savefig fcompress
             mpl_fig file_name title tags compress w h fit))
  = Ok (if compress =? 2 then <[ "svg_str" := VStr text ]> plain else plain).
Proof.
  intros RT. subst plain. rewrite !mplfig_to_svg_dict_header. cbn zeta. fold text.
  change (0 =? 0) with true. cbv iota.
  set (hd := header file_name title tags).
  destruct (compress =? 0) eqn:E0.
  - apply Z.eqb_eq in E0. subst compress. change (0 =? 2) with false. cbv iota.
    cbn [decompress_svg_dict]. rewrite lookup_insert_eq. reflexivity.
  - destruct (compress =? 2); cbn [decompress_svg_dict].
    + rewrite lookup_insert_ne by discriminate. rewrite lookup_insert_eq, RT.
      cbn [mbind result_bind bind]. f_equal.
      rewrite (insert_insert_ne _ "svg" "svg_str") by discriminate.
      rewrite insert_insert_eq. reflexivity.
    + rewrite lookup_insert_eq, RT. cbn [mbind result_bind bind].
      rewrite insert_insert_eq. reflexivity.
Qed.

(** X3. A call that returns leaves every key other than [svg] as it was,
    adds and removes no key, and never leaves bytes under [svg]. *)
Theorem decompress_svg_dict_keeps (d d' : gmap string value) :
  decompress_svg_dict decompress_str (Dict d) = Ok d' ->
  (forall k, k <> "svg" -> d' !! k = d !! k)
  /\ (forall k, is_Some (d' !! k) <-> is_Some (d !! k))
  /\ (forall b, d' !! "svg" <> Some (VBytes b)).
Proof.
  cbn [decompress_svg_dict]. intros R.
  destruct (d !! "svg") as [v|] eqn:E; [|discriminate R].
  assert (K : (exists b s, v = VBytes b /\ d' = <[ "svg" := VStr s ]> d)
              \/ ((forall b, v <> VBytes b) /\ d' = d)).
  { destruct v as [| | | |b|]; try (right; split; [discriminate|congruence]).
    left. destruct (decompress_str b) as [s|e]; [|discriminate R].
    exists b, s. split; [reflexivity|]. cbn in R. congruence. }
  destruct K as [(b & s & -> & ->)|[Nb ->]].
  - split; [|split].
    + intros k Hk. apply lookup_insert_ne. congruence.
    + intros k. rewrite lookup_insert_is_Some.
      destruct (decide ("svg" = k)) as [<-|Hk]; [rewrite E; split; eauto|].
      split; [intros [|[_ ?]]; [contradiction|assumption] | intros ?; right; auto].
    + intros b'. rewrite lookup_insert_eq. discriminate.
  - split; [reflexivity|]. split; [reflexivity|].
    intros b. rewrite E. intros [= ->]. exact (Nb b eq_refl).
Qed.

(** X4. On a dict the call raises in two cases only: [KeyError] when there
    is no [svg] key, and whatever the decompressor raised on the bytes
    under [svg]. *)
Theorem decompress_svg_dict_raises (d : gmap string value) (e : exn) :
  decompress_svg_dict decompress_str (Dict d) = Raise e
  <-> (d !! "svg" = None /\ e = KeyError "svg")
      \/ (exists b, d !! "svg" = Some (VBytes b) /\ decompress_str b = Raise e).
Proof.
  cbn [decompress_svg_dict]. split.
  - destruct (d !! "svg") as [v|] eqn:E; [|intros [= <-]; left; auto].
    destruct v as [| | | |b|]; try discriminate.
    destruct (decompress_str b) as [s|e'] eqn:D; [discriminate|].
    intros [= <-]. right. eauto.
  - intros [[-> ->]|(b & -> & D)]; [reflexivity|]. rewrite D. reflexivity.
Qed.

End Envelope.

(** A record of mode [1] made and read back with the stand-ins. *)
Lemma decompress_after_mplfig_example :
  decompress_svg_dict decompress_stub
    (Dict (mplfig_to_svg_dict unit (fun _ _ f => f) (fun _ f => f) render_stub
             compress_stub tt "plot.svg" None None 1 None None None))
  = Ok (mplfig_to_svg_dict unit (fun _ _ f => f) (fun _ f => f) render_stub
          compress_stub tt "plot.svg" None None 0 None None None).
Proof.
  apply (decompress_after_mplfig unit (fun _ _ f => f) (fun _ f => f) render_stub
           compress_stub decompress_stub tt "plot.svg" None None 1 None None None).
  vm_compute. reflexivity.
Defined.

(** A record with a name and compressed bytes, decompressed. *)
Lemma decompress_svg_dict_keeps_example :
  let d : gmap string value :=
    {[ "name" := VStr "plot.svg"; "svg" := VBytes (rev (encode_utf8 "<svg/>")) ]} in
  let d' : gmap string value := <[ "svg" := VStr "<svg/>" ]> d in
  decompress_svg_dict decompress_stub (Dict d) = Ok d'
  /\ d' !! "name" = d !! "name"
  /\ (forall b, d' !! "svg" <> Some (VBytes b)).
Proof.
  intros d d'.
  assert (E : decompress_svg_dict decompress_stub (Dict d) = Ok d') by reflexivity.
  destruct (decompress_svg_dict_keeps decompress_stub d d' E) as (K & _ & B).
  split; [exact E|]. split; [apply K; discriminate | exact B].
Defined.

End EnvelopeMore.

(* ===================================================================== *)
(** * Saving to disk *)
(* ===================================================================== *)

Module DiskFacts.
Import Py Utils PyFacts.

Section Disk.
Variable MplFigure : Type.
Variable set_size_inches : Z -> Z -> MplFigure -> MplFigure.
Variable suptitle : string -> MplFigure -> MplFigure.
Variable savefig : MplFigure -> string.
Variable fcompress : list byte -> string -> list byte.
Variable Extra : Type.
Variable FS : Type.
Variable open_w : string -> FS -> result FS.
Variable write : string -> string -> FS -> FS.

(** What the branches of [mplfig_to_svg_dict1] find in the record. *)
Lemma record_lookups (mpl_fig : MplFigure) (file_name : string) (title : option string)
    (tags : option (list string)) (w h : option Z) (fit : option bool)
    (text := savefig (staged MplFigure set_size_inches suptitle mpl_fig title w h fit)) :
  let run := mplfig_to_svg_dict MplFigure set_size_inches suptitle savefig fcompress
               mpl_fig file_name title tags in
  run 2 w h fit !! "svg_str" = Some (VStr text)
  /\ delete "svg_str" (run 2 w h fit) = run 1 w h fit
  /\ run 0 w h fit !! "svg" = Some (VStr text)
  /\ (forall c, c <> 0 -> c <> 2 -> exists b, run c w h fit !! "svg" = Some (VBytes b)).
Proof.
  cbn zeta. unfold mplfig_to_svg_dict. fold text.
  change (2 =? 0) with false. change (2 =? 2) with true. change (1 =? 0) with false.
  change (1 =? 2) with false. change (0 =? 0) with true. cbn zeta. cbv iota.
  split; [apply lookup_insert_eq|]. split.
  - apply delete_insert_id. rewrite lookup_insert_ne by discriminate.
    apply EnvelopeFacts.header_lookup; discriminate.
  - split; [apply lookup_insert_eq|]. intros c C0 C2.
    destruct (Z.eqb_spec c 0); [contradiction|]. destruct (Z.eqb_spec c 2); [contradiction|].
    eexists. apply lookup_insert_eq.
Qed.

(** X5. Without a directory to save to ([disk_save] unset or empty) the
    call opens no file and returns what [mplfig_to_svg_dict] returns for
    the values the properties give. *)
Theorem mplfig_to_svg_dict1_no_disk_save (mpl_fig : MplFigure)
    (props : PlotProps.t Extra) (extra : option Extra) (fs : FS) :
  PlotProps.disk_save props = None \/ PlotProps.disk_save props = Some EmptyString ->
  mplfig_to_svg_dict1 MplFigure set_size_inches suptitle savefig fcompress Extra FS
    open_w write mpl_fig props extra fs
  = (fs, Ok (mplfig_to_svg_dict MplFigure set_size_inches suptitle savefig fcompress
               mpl_fig (PlotProps.get_file_name props extra)
               (PlotProps.get_title props extra) (PlotProps.tags props)
               (PlotProps.get_compress props) (PlotProps.width props)
               (PlotProps.height props) (PlotProps.fig_include_title props))).
Proof.
  intros [D|D]; unfold mplfig_to_svg_dict1; rewrite D; reflexivity.
Qed.

(** X6. With a directory, a file that opens, and mode [0] or [2], the
    uncompressed text is written to [disk_save/file_name]; in mode [2] the
    [svg_str] key is taken out again, so the record returned is the one of
    mode [1]. *)
Theorem mplfig_to_svg_dict1_saves_text (mpl_fig : MplFigure)
    (props : PlotProps.t Extra) (extra : option Extra) (fs fs' : FS)
    (c : ascii) (dir : string)
    (file_name := PlotProps.get_file_name props extra)
    (path := String c dir +:+ "/" +:+ file_name)
    (text := savefig (staged MplFigure set_size_inches suptitle mpl_fig
                        (PlotProps.get_title props extra) (PlotProps.width props)
                        (PlotProps.height props) (PlotProps.fig_include_title props))) :
  PlotProps.disk_save props = Some (String c dir) ->
  open_w path fs = Ok fs' ->
  PlotProps.get_compress props = 0 \/ PlotProps.get_compress props = 2 ->
  mplfig_to_svg_dict1 MplFigure set_size_inches suptitle savefig fcompress Extra FS
    open_w write mpl_fig props extra fs
  = (write path text fs',
     Ok (mplfig_to_svg_dict MplFigure set_size_inches suptitle savefig fcompress
           mpl_fig file_name (PlotProps.get_title props extra) (PlotProps.tags props)
           (if PlotProps.get_compress props =? 2 then 1 else 0)
           (PlotProps.width props) (PlotProps.height props)
           (PlotProps.fig_include_title props))).
Proof.
  intros D O C. unfold mplfig_to_svg_dict1. rewrite D. cbn [truthy_str from_option id].
  cbv zeta. fold file_name. fold path. rewrite O.
  destruct (record_lookups mpl_fig file_name (PlotProps.get_title props extra)
              (PlotProps.tags props) (PlotProps.width props) (PlotProps.height props)
              (PlotProps.fig_include_title props)) as (L2 & D2 & L0 & _).
  fold text in L2, L0.
  destruct C as [-> | ->].
  - change (0 =? 2) with false. cbv iota. rewrite L0. reflexivity.
  - change (2 =? 2) with true. cbv iota. rewrite L2, D2. reflexivity.
Qed.

(** X7. With a directory, a file that opens, and any mode other than [0]
    and [2], the call hands the compressed bytes to a file opened for text:
    it raises [TypeError] after the file was opened, writes nothing and
    returns no record. *)
Theorem mplfig_to_svg_dict1_refuses_bytes (mpl_fig : MplFigure)
    (props : PlotProps.t Extra) (extra : option Extra) (fs fs' : FS)
    (c : ascii) (dir : string)
    (path := String c dir +:+ "/" +:+ PlotProps.get_file_name props extra) :
  PlotProps.disk_save props = Some (String c dir) ->
  open_w path fs = Ok fs' ->
  PlotProps.get_compress props <> 0 -> PlotProps.get_compress props <> 2 ->
  mplfig_to_svg_dict1 MplFigure set_size_inches suptitle savefig fcompress Extra FS
    open_w write mpl_fig props extra fs
  = (fs', Raise (TypeError "write() argument must be str, not bytes")).
Proof.
  intros D O C0 C2. unfold mplfig_to_svg_dict1. rewrite D. cbn [truthy_str from_option id].
  cbv zeta. fold path. rewrite O.
  destruct (Z.eqb_spec (PlotProps.get_compress props) 2); [contradiction|].
  destruct (record_lookups mpl_fig (PlotProps.get_file_name props extra)
              (PlotProps.get_title props extra)
              (PlotProps.tags props) (PlotProps.width props) (PlotProps.height props)
              (PlotProps.fig_include_title props)) as (_ & _ & _ & L).
  destruct (L _ C0 C2) as [b Hb]. rewrite Hb. reflexivity.
Qed.

End Disk.

(** No directory to save to: the disk is as it was. *)
Lemma mplfig_to_svg_dict1_no_disk_save_example :
  mplfig_to_svg_dict1 unit (fun _ _ f => f) (fun _ f => f) render_stub compress_stub
    unit (gmap string string) disk_open disk_write
    tt (plot_props 1 None) None {[ "/tmp/plot.svg" := "old" ]}
  = ({[ "/tmp/plot.svg" := "old" ]},
     Ok (mplfig_to_svg_dict unit (fun _ _ f => f) (fun _ f => f) render_stub
           compress_stub tt "plot.svg" (Some "A plot") (Some ["lc"]) 1 None None
           (Some true))).
Proof.
  apply (mplfig_to_svg_dict1_no_disk_save unit (fun _ _ f => f) (fun _ f => f)
           render_stub compress_stub unit (gmap string string) disk_open disk_write
           tt (plot_props 1 None) None).
  left. reflexivity.
Defined.

(** Mode [2] saved to [/tmp]: the file holds the text and the record is
    that of mode [1]. *)
Lemma mplfig_to_svg_dict1_saves_text_example :
  mplfig_to_svg_dict1 unit (fun _ _ f => f) (fun _ f => f) render_stub compress_stub
    unit (gmap string string) disk_open disk_write
    tt (plot_props 2 (Some "/tmp")) None {[ "/tmp/plot.svg" := "old" ]}
  = ({[ "/tmp/plot.svg" := "<svg/>" ]},
     Ok (mplfig_to_svg_dict unit (fun _ _ f => f) (fun _ f => f) render_stub
           compress_stub tt "plot.svg" (Some "A plot") (Some ["lc"]) 1 None None
           (Some true))).
Proof.
  rewrite (mplfig_to_svg_dict1_saves_text unit (fun _ _ f => f) (fun _ f => f)
             render_stub compress_stub unit (gmap string string)
             disk_open disk_write tt (plot_props 2 (Some "/tmp")) None
             {[ "/tmp/plot.svg" := "old" ]}
             (<[ "/tmp/plot.svg" := EmptyString ]> {[ "/tmp/plot.svg" := "old" ]})
             "/" "tmp" eq_refl eq_refl (or_intror eq_refl)).
  vm_compute. reflexivity.
Defined.

(** Mode [1] saved to [/tmp]: the file is emptied and the call raises. *)
Lemma mplfig_to_svg_dict1_refuses_bytes_example :
  mplfig_to_svg_dict1 unit (fun _ _ f => f) (fun _ f => f) render_stub compress_stub
    unit (gmap string string) disk_open disk_write
    tt (plot_props 1 (Some "/tmp")) None {[ "/tmp/plot.svg" := "old" ]}
  = ({[ "/tmp/plot.svg" := EmptyString ]},
     Raise (TypeError "write() argument must be str, not bytes")).
Proof.
  rewrite (mplfig_to_svg_dict1_refuses_bytes unit (fun _ _ f => f) (fun _ f => f)
             render_stub compress_stub unit (gmap string string)
             disk_open disk_write tt (plot_props 1 (Some "/tmp")) None
             {[ "/tmp/plot.svg" := "old" ]}
             (<[ "/tmp/plot.svg" := EmptyString ]> {[ "/tmp/plot.svg" := "old" ]})
             "/" "tmp" eq_refl eq_refl); [|discriminate..].
  vm_compute. reflexivity.
Defined.

End DiskFacts.

(* ===================================================================== *)
(** * Stacking, further *)
(* ===================================================================== *)

Module StackMore.
Import Py Svg Utils PyFacts StackFacts.

Lemma float_of_str_raises (s : string) (e : exn) :
  float_of_str s = Raise e -> exists msg, e = ValueError msg.
Proof.
  unfold float_of_str. destruct (parse_float _); [discriminate|].
  intros [= <-]. eauto.
Qed.

Lemma pt_float_ok (attr : option string) (s : string) (x : float) :
  pt_float attr = Ok (s, x)
  <-> attr = Some s /\ float_of_str (replace "pt" EmptyString s) = Ok x.
Proof.
  unfold pt_float. destruct attr as [t|]; [|split; [discriminate|intros [[=] _]]].
  destruct (float_of_str (replace "pt" EmptyString t)) as [y|e] eqn:E;
    cbn [mbind result_bind bind]; split.
  - intros [= -> ->]. auto.
  - intros [[= ->] F]. congruence.
  - discriminate.
  - intros [[= ->] F]. congruence.
Qed.

Lemma pt_float_raises (attr : option string) (e : exn) :
  pt_float attr = Raise e ->
  (attr = None /\ e = AttributeError "'NoneType' object has no attribute 'replace'")
  \/ (exists s msg, attr = Some s /\ e = ValueError msg).
Proof.
  unfold pt_float. destruct attr as [t|]; [|intros [= <-]; left; auto].
  destruct (float_of_str (replace "pt" EmptyString t)) as [y|e'] eqn:E;
    cbn [mbind result_bind bind]; [discriminate|].
  intros [= <-]. right. apply float_of_str_raises in E as [msg ->]. eauto.
Qed.

(** The four readings of [stack_svg_body], in the order it makes them. *)
Lemma stack_svg_body_reads (fig1 fig2 : figure) (horizontally separator : bool) :
  stack_svg_body fig1 fig2 horizontally separator
  = (a ← pt_float (get "width" fig1);
     b ← pt_float (get "height" fig1);
     c ← pt_float (get "width" fig2);
     d ← pt_float (get "height" fig2);
     stack_svg_body fig1 fig2 horizontally separator).
Proof.
  unfold stack_svg_body, get_size.
  destruct (pt_float (get "width" fig1)) as [[]|]; [|reflexivity].
  destruct (pt_float (get "height" fig1)) as [[]|]; [|reflexivity].
  destruct (pt_float (get "width" fig2)) as [[]|]; [|reflexivity].
  destruct (pt_float (get "height" fig2)) as [[]|]; reflexivity.
Qed.

Lemma stack_svg_body_ok_sizes (fig1 fig2 : figure) (horizontally separator : bool)
    (out : figure) :
  stack_svg_body fig1 fig2 horizontally separator = Ok out ->
  exists sw1 sh1 sw2 sh2 w1 h1 w2 h2,
    get_size fig1 = (Some sw1, Some sh1)
    /\ get_size fig2 = (Some sw2, Some sh2)
    /\ float_of_str (replace "pt" EmptyString sw1) = Ok w1
    /\ float_of_str (replace "pt" EmptyString sh1) = Ok h1
    /\ float_of_str (replace "pt" EmptyString sw2) = Ok w2
    /\ float_of_str (replace "pt" EmptyString sh2) = Ok h2.
Proof.
  intros E. rewrite stack_svg_body_reads in E.
  destruct (pt_float (get "width" fig1)) as [[sw1 w1]|] eqn:A; [|discriminate E].
  destruct (pt_float (get "height" fig1)) as [[sh1 h1]|] eqn:B; [|discriminate E].
  destruct (pt_float (get "width" fig2)) as [[sw2 w2]|] eqn:C; [|discriminate E].
  destruct (pt_float (get "height" fig2)) as [[sh2 h2]|] eqn:D; [|discriminate E].
  apply pt_float_ok in A as [A1 A2], B as [B1 B2], C as [C1 C2], D as [D1 D2].
  exists sw1, sh1, sw2, sh2, w1, h1, w2, h2. unfold get_size.
  rewrite A1, B1, C1, D1. auto 10.
Qed.

(** X8. The body of [stack_svg] returns a document exactly when both
    documents have a width and a height and all four texts, once ["pt"] is
    removed, read as floats; the layout and the separator play no part. *)
Theorem stack_svg_body_ok_iff (fig1 fig2 : figure) (horizontally separator : bool) :
  (exists out, stack_svg_body fig1 fig2 horizontally separator = Ok out)
  <-> exists sw1 sh1 sw2 sh2 w1 h1 w2 h2,
        get_size fig1 = (Some sw1, Some sh1)
        /\ get_size fig2 = (Some sw2, Some sh2)
        /\ float_of_str (replace "pt" EmptyString sw1) = Ok w1
        /\ float_of_str (replace "pt" EmptyString sh1) = Ok h1
        /\ float_of_str (replace "pt" EmptyString sw2) = Ok w2
        /\ float_of_str (replace "pt" EmptyString sh2) = Ok h2.
Proof.
  split.
  - intros [out E]. exact (stack_svg_body_ok_sizes _ _ _ _ _ E).
  - intros (sw1 & sh1 & sw2 & sh2 & w1 & h1 & w2 & h2 & S1 & S2 & W1 & H1 & W2 & H2).
    destruct (stack_svg_body_runs _ _ _ _ _ _ _ _ _ _ S1 S2 W1 H1 W2 H2 horizontally separator)
      as (out & E & _). eauto.
Qed.

(** X9. When the body of [stack_svg] raises, it is the [AttributeError]
    of a document without width or height, or the [ValueError] of [float]
    on a size it cannot read; nothing else. *)
Theorem stack_svg_body_raises (fig1 fig2 : figure) (horizontally separator : bool)
    (e : exn) :
  stack_svg_body fig1 fig2 horizontally separator = Raise e ->
  (e = AttributeError "'NoneType' object has no attribute 'replace'"
   /\ (get "width" fig1 = None \/ get "height" fig1 = None
       \/ get "width" fig2 = None \/ get "height" fig2 = None))
  \/ (exists msg, e = ValueError msg).
Proof.
  intros E. rewrite stack_svg_body_reads in E.
  destruct (pt_float (get "width" fig1)) as [[sw1 w1]|e1] eqn:A.
  2:{ injection E as <-. apply pt_float_raises in A as [[-> ->]|(s & m & _ & ->)]; eauto 6. }
  destruct (pt_float (get "height" fig1)) as [[sh1 h1]|e1] eqn:B.
  2:{ injection E as <-. apply pt_float_raises in B as [[-> ->]|(s & m & _ & ->)]; eauto 6. }
  destruct (pt_float (get "width" fig2)) as [[sw2 w2]|e1] eqn:C.
  2:{ injection E as <-. apply pt_float_raises in C as [[-> ->]|(s & m & _ & ->)]; eauto 6. }
  destruct (pt_float (get "height" fig2)) as [[sh2 h2]|e1] eqn:D.
  2:{ injection E as <-. apply pt_float_raises in D as [[-> ->]|(s & m & _ & ->)]; eauto 6. }
  exfalso. apply pt_float_ok in A as [A1 A2], B as [B1 B2], C as [C1 C2], D as [D1 D2].
  assert (S1 : get_size fig1 = (Some sw1, Some sh1)) by (unfold get_size; congruence).
  assert (S2 : get_size fig2 = (Some sw2, Some sh2)) by (unfold get_size; congruence).
  cbn [mbind result_bind bind] in E.
  destruct (stack_svg_body_runs _ _ _ _ _ _ _ _ _ _ S1 S2 A2 B2 C2 D2 horizontally separator)
    as (out & E' & _). congruence.
Qed.


(** X10. The stacked document has the attributes [version] (["1.1"]),
    [width], [height] and [viewBox] and no other, so nothing else of the
    root tags of the inputs reaches it. Its first child is the content of
    the first document, unmoved; its second the content of the second
    document moved by [(w1, 0)] or [(0, h1)]; a third child is there
    exactly when a separator was asked for. *)
Theorem stack_svg_body_shape (fig1 fig2 : figure) (horizontally separator : bool)
    (out : figure) :
  stack_svg_body fig1 fig2 horizontally separator = Ok out ->
  get "version" out = Some "1.1"
  /\ (forall k, is_Some (get k out) ->
        k = "version" \/ k = "width" \/ k = "height" \/ k = "viewBox")
  /\ exists sw1 sh1 w1 h1,
       get_size fig1 = (Some sw1, Some sh1)
       /\ float_of_str (replace "pt" EmptyString sw1) = Ok w1
       /\ float_of_str (replace "pt" EmptyString sh1) = Ok h1
       /\ firstn 2 (children out)
          = [Group (children fig1);
             Transformed (if horizontally then Translate (Float w1) (Int 0)
                          else Translate (Int 0) (Float h1))
               (Group (children fig2))]
       /\ length (children out) = if separator then 3%nat else 2%nat.
Proof.
  intros E.
  destruct (stack_svg_body_ok_sizes fig1 fig2 horizontally separator out E)
    as (sw1 & sh1 & sw2 & sh2 & w1 & h1 & w2 & h2 & S1 & S2 & W1 & H1 & W2 & H2).
  assert (E' := E). unfold stack_svg_body in E'. rewrite S1, S2 in E'. unfold pt_float in E'.
  rewrite W1, H1, W2, H2 in E'. cbn [mbind result_bind bind] in E'.
  split; [|split].
  - destruct horizontally, separator; injection E' as <-; reflexivity.
  - intros k. destruct horizontally, separator; injection E' as <-;
      unfold get, append, set, SVGFigure; cbn [attrib];
      intros Hs;
      repeat (apply lookup_insert_is_Some in Hs as [<-|[_ Hs]]; [tauto|]);
      destruct Hs as [v Hs]; apply lookup_singleton_Some in Hs as [<- _]; tauto.
  - exists sw1, sh1, w1, h1. repeat split; try assumption;
      destruct horizontally, separator; injection E' as <-; reflexivity.
Qed.

(** ** Reading a size *)

Lemma replace_absent (old new s : string) :
  contains old s = false -> old <> EmptyString -> replace old new s = s.
Proof.
  intros C N. unfold replace. induction s as [|c s IH]; [reflexivity|].
  cbn [contains] in C. apply orb_false_iff in C as [C1 C2].
  cbn [replace_from]. rewrite C1. f_equal. auto.
Qed.

Lemma replace_pt_suffix (s : string) :
  contains "p" s = false -> replace "pt" EmptyString (s +:+ "pt") = s.
Proof.
  unfold replace. induction s as [|c s IH]; intros C; [reflexivity|].
  cbn [contains] in C. apply orb_false_iff in C as [C1 C2].
  change (String c s +:+ "pt") with (String c (s +:+ "pt")).
  cbn [replace_from].
  assert (S : startswith "pt" (String c (s +:+ "pt")) = false).
  { cbn [startswith] in *. destruct (Ascii.eqb "p" c); [discriminate C1|reflexivity]. }
  rewrite S. f_equal. auto.
Qed.

(** X11. How a size is read: a text without ["pt"] is handed to [float]
    as it is, so sizes without a unit are accepted; a text that ends in
    ["pt"] after a part without the letter [p] is read as that part. *)
Theorem pt_float_reads (s : string) :
  (contains "pt" s = false ->
     pt_float (Some s) = (x ← float_of_str s; Ok (s, x)))
  /\ (contains "p" s = false ->
     pt_float (Some (s +:+ "pt")) = (x ← float_of_str s; Ok (s +:+ "pt", x))).
Proof.
  split; intros C; unfold pt_float.
  - rewrite (replace_absent "pt" EmptyString s C) by discriminate. reflexivity.
  - rewrite (replace_pt_suffix s C). reflexivity.
Qed.


(** A width in pixels raises the [ValueError] of [float]. *)
Lemma stack_svg_body_raises_px :
  exists msg,
    stack_svg_body (document "80px" "60px" "<rect/>") doc_100x50 false true
    = Raise (ValueError msg).
Proof.
  assert (E : stack_svg_body (document "80px" "60px" "<rect/>") doc_100x50 false true
              = Raise (ValueError "could not convert string to float: '80px'"))
    by (vm_compute; reflexivity).
  destruct (stack_svg_body_raises _ _ _ _ _ E) as [[A _]|[msg M]]; [discriminate A|].
  exists msg. rewrite E, M. reflexivity.
Defined.

(** The scenario's documents side by side with a separator. *)
Lemma stack_svg_body_shape_scenario :
  exists out,
    stack_svg_body doc_100x50 doc_80x60 true true = Ok out
    /\ get "version" out = Some "1.1"
    /\ firstn 2 (children out)
       = [Group [Node "<rect/>"];
          Transformed (Translate (Float 100) (Int 0)) (Group [Node "<circle/>"])]
    /\ length (children out) = 3%nat.
Proof.
  destruct (stack_svg_body_runs doc_100x50 doc_80x60 "100pt" "50pt" "80pt" "60pt"
              100 50 80 60) with (horizontally := true) (separator := true)
    as (out & E & _); try (vm_compute; reflexivity).
  destruct (stack_svg_body_shape doc_100x50 doc_80x60 true true out E)
    as (V & _ & sw1 & sh1 & w1 & h1 & S & W & H & F & L).
  exists out. split; [exact E|]. split; [exact V|]. split; [|exact L].
  rewrite F. vm_compute in S. injection S as <- <-.
  vm_compute in W. injection W as <-. reflexivity.
Defined.

End StackMore.

(* ===================================================================== *)
(** * Rescaling, further *)
(* ===================================================================== *)

Module RescaleMore.
Import Py Svg Utils PyFacts StackFacts RescaleFacts StackMore.

Lemma split_head_absent (s : string) :
  contains "." s = false -> split_head "." s = s.
Proof.
  induction s as [|c s IH]; [reflexivity|]. intros C.
  cbn [contains] in C. apply orb_false_iff in C as [C1 C2].
  cbn [split_head]. cbn [startswith] in C1.
  rewrite Ascii.eqb_sym. destruct (Ascii.eqb "." c); [discriminate C1|].
  f_equal. auto.
Qed.

Lemma split_head_cut (a rest : string) :
  contains "." a = false -> split_head "." (a +:+ "." +:+ rest) = a.
Proof.
  induction a as [|c a IH]; [reflexivity|]. intros C.
  cbn [contains] in C. apply orb_false_iff in C as [C1 C2].
  change (String c a +:+ "." +:+ rest) with (String c (a +:+ "." +:+ rest)).
  cbn [split_head]. cbn [startswith] in C1.
  rewrite Ascii.eqb_sym. destruct (Ascii.eqb "." c); [discriminate C1|].
  f_equal. auto.
Qed.

(** X13. How [rescale] reads a size: what stands before the first ['.']
    is handed to [float], and everything from that ['.'] on, fraction and
    unit alike, is ignored; a text without ['.'] is handed over whole. *)
Theorem split_float_reads (a rest : string) :
  contains "." a = false ->
  split_float (Some a) = float_of_str a
  /\ split_float (Some (a +:+ "." +:+ rest)) = float_of_str a.
Proof.
  intros C. unfold split_float.
  rewrite (split_head_absent a C), (split_head_cut a rest C). auto.
Qed.

Lemma split_float_raises (attr : option string) (e : exn) :
  split_float attr = Raise e ->
  (attr = None /\ e = AttributeError "'NoneType' object has no attribute 'split'")
  \/ (exists msg, e = ValueError msg).
Proof.
  unfold split_float. destruct attr as [s|]; [|intros [= <-]; auto].
  intros E. right. eapply float_of_str_raises, E.
Qed.

(** X12. The body of [rescale] returns a document exactly when the
    document has a width and a height whose texts, cut at their first
    ['.'], read as floats, whatever the scale; when it raises, it is the
    [AttributeError] of a missing width or height or the [ValueError] of
    [float]. *)
Theorem rescale_body_outcome (size_text : float -> string) (original : figure)
    (scale : float) :
  ((exists out, rescale_body size_text original scale = Ok out)
   <-> exists w h, split_float (width original) = Ok w
                   /\ split_float (height original) = Ok h)
  /\ (forall e, rescale_body size_text original scale = Raise e ->
        (e = AttributeError "'NoneType' object has no attribute 'split'"
         /\ (width original = None \/ height original = None))
        \/ (exists msg, e = ValueError msg)).
Proof.
  split; [split|].
  - intros [out E]. unfold rescale_body in E.
    destruct (split_float (width original)) as [w|] eqn:A; [|discriminate E].
    destruct (split_float (height original)) as [h|] eqn:B; [|discriminate E].
    eauto.
  - intros (w & h & A & B).
    destruct (rescale_body_runs size_text original w h scale A B) as (out & E & _). eauto.
  - intros e E. unfold rescale_body in E.
    destruct (split_float (width original)) as [w|e1] eqn:A.
    2:{ injection E as <-. apply split_float_raises in A as [[-> ->]|?]; auto. }
    destruct (split_float (height original)) as [h|e1] eqn:B.
    2:{ injection E as <-. apply split_float_raises in B as [[-> ->]|?]; auto. }
    discriminate E.
Qed.

(** X14. Two documents with the same content whose widths and heights
    agree up to their first ['.'] are rescaled to the same document: the
    fraction and the unit of a size never reach the result. *)
Theorem rescale_body_ignores_fraction (size_text : float -> string)
    (fig1 fig2 : figure) (a b r1 r2 t1 t2 : string) (scale : float) :
  children fig1 = children fig2 ->
  contains "." a = false -> contains "." b = false ->
  width fig1 = Some (a +:+ "." +:+ r1) -> height fig1 = Some (b +:+ "." +:+ t1) ->
  width fig2 = Some (a +:+ "." +:+ r2) -> height fig2 = Some (b +:+ "." +:+ t2) ->
  rescale_body size_text fig1 scale = rescale_body size_text fig2 scale.
Proof.
  intros Ch Ca Cb W1 H1 W2 H2. unfold rescale_body, getroot.
  rewrite W1, H1, W2, H2, Ch. unfold split_float.
  rewrite !(split_head_cut a _ Ca), !(split_head_cut b _ Cb). reflexivity.
Qed.

(** X15. Rescaling what was rescaled nests the transforms: the result has
    one child, the first result's one child in a group under the second
    scale, with the original content under the first scale inside; the two
    scales are not multiplied into one. *)
Theorem rescale_body_nests (size_text : float -> string) (original mid out : figure)
    (k k' : float) :
  rescale_body size_text original k = Ok mid ->
  rescale_body size_text mid k' = Ok out ->
  children out
  = [Transformed (Scale (Float k') (Float k'))
       (Group [Transformed (Scale (Float k) (Float k)) (Group (children original))])].
Proof.
  intros E1 E2.
  assert (C : forall f s o, rescale_body size_text f s = Ok o ->
              children o = [Transformed (Scale (Float s) (Float s)) (Group (children f))]).
  { intros f s o E. unfold rescale_body in E.
    destruct (split_float (width f)); [|discriminate E].
    destruct (split_float (height f)); [|discriminate E].
    injection E as <-. reflexivity. }
  rewrite (C _ _ _ E2), (C _ _ _ E1). reflexivity.
Qed.


(** ["432.5px"]: the text before the ['.'] is ["432"]. *)
Lemma split_float_reads_432 :
  split_float (Some "432") = float_of_str "432"
  /\ split_float (Some "432.5px") = float_of_str "432".
Proof. apply (split_float_reads "432" "5px"). reflexivity. Defined.

(** ["432.5px"] by ["300.25px"] and ["432.9pt"] by ["300.75pt"]. *)
Lemma rescale_body_ignores_fraction_432 :
  rescale_body px_text doc_432_5 2%float
  = rescale_body px_text (document "432.9pt" "300.75pt" "<rect/>") 2%float.
Proof.
  apply (rescale_body_ignores_fraction px_text doc_432_5
           (document "432.9pt" "300.75pt" "<rect/>")
           "432" "300" "5px" "9pt" "25px" "75pt" 2%float);
    reflexivity.
Defined.

(** The scenario's document doubled and halved. *)
Lemma rescale_body_nests_432 :
  exists mid out,
    rescale_body px_text doc_432_5 2%float = Ok mid
    /\ rescale_body px_text mid 0.5%float = Ok out
    /\ children out
       = [Transformed (Scale (Float 0.5) (Float 0.5))
            (Group [Transformed (Scale (Float 2) (Float 2)) (Group [Node "<rect/>"])])].
Proof.
  assert (Hw : split_float (width doc_432_5) = Ok 432%float) by (vm_compute; reflexivity).
  assert (Hh : split_float (height doc_432_5) = Ok 300%float) by (vm_compute; reflexivity).
  destruct (rescale_body_runs px_text doc_432_5 432 300 2 Hw Hh) as (mid & E1 & W1 & H1 & _).
  assert (Hw' : split_float (width mid) = Ok 864%float)
    by (rewrite W1; vm_compute; reflexivity).
  assert (Hh' : split_float (height mid) = Ok 600%float)
    by (rewrite H1; vm_compute; reflexivity).
  destruct (rescale_body_runs px_text mid 864 600 0.5 Hw' Hh') as (out & E2 & _).
  exists mid, out. split; [exact E1|]. split; [exact E2|].
  exact (rescale_body_nests px_text doc_432_5 mid out 2 0.5 E1 E2).
Defined.

End RescaleMore.

(* ===================================================================== *)
(** * From text to text, further *)
(* ===================================================================== *)

Module TextMore.
Import Py Svg Utils PyFacts StackFacts StackMore.

Section Text.
Variable fromstring : string -> result figure.
Variable to_str : figure -> list byte.
Variable size_text : float -> string.

(** X19. [stack_svg] parses the first text, then the second, and only then
    reads sizes: a first text that does not parse raises its error; a second
    text that does not parse raises its error whatever the sizes of the
    first document; and the call returns exactly the bytes written for the
    document its body builds from the two parsed documents. *)
Theorem stack_svg_outcome (svg1 svg2 : string) (horizontally separator : bool) :
  (forall e, fromstring svg1 = Raise e ->
     stack_svg fromstring to_str svg1 svg2 horizontally separator = Raise e)
  /\ (forall fig1 e, fromstring svg1 = Ok fig1 -> fromstring svg2 = Raise e ->
     stack_svg fromstring to_str svg1 svg2 horizontally separator = Raise e)
  /\ (forall bytes,
        stack_svg fromstring to_str svg1 svg2 horizontally separator = Ok bytes
        <-> exists fig1 fig2 out,
              fromstring svg1 = Ok fig1 /\ fromstring svg2 = Ok fig2
              /\ stack_svg_body fig1 fig2 horizontally separator = Ok out
              /\ bytes = to_str out).
Proof.
  unfold stack_svg. split; [|split].
  - intros e E. rewrite E. reflexivity.
  - intros fig1 e E1 E2. rewrite E1, E2. reflexivity.
  - intros bytes. split.
    + destruct (fromstring svg1) as [fig1|]; [|discriminate].
      destruct (fromstring svg2) as [fig2|]; [|discriminate].
      cbn [mbind result_bind bind].
      destruct (stack_svg_body fig1 fig2 horizontally separator) as [out|] eqn:B;
        [|discriminate].
      intros [= <-]. exists fig1, fig2, out. auto.
    + intros (fig1 & fig2 & out & -> & -> & B & ->).
      cbn [mbind result_bind bind]. rewrite B. reflexivity.
Qed.

(** X20. [rescale] raises the parser's error on text that does not parse,
    and returns exactly the text written for the document its body builds
    from the parsed document. *)
Theorem rescale_outcome (svg : string) (scale : float) :
  (forall e, fromstring svg = Raise e ->
     rescale fromstring to_str size_text svg scale = Raise e)
  /\ (forall text,
        rescale fromstring to_str size_text svg scale = Ok text
        <-> exists original out,
              fromstring svg = Ok original
              /\ rescale_body size_text original scale = Ok out
              /\ text = decode_utf8 (to_str out)).
Proof.
  unfold rescale. split.
  - intros e E. rewrite E. reflexivity.
  - intros text. split.
    + destruct (fromstring svg) as [original|]; [|discriminate].
      cbn [mbind result_bind bind].
      destruct (rescale_body size_text original scale) as [out|] eqn:B; [|discriminate].
      intros [= <-]. exists original, out. auto.
    + intros (original & out & -> & B & ->).
      cbn [mbind result_bind bind]. rewrite B. reflexivity.
Qed.

End Text.

(** A second text the parser refuses, after a first it reads. *)
Lemma stack_svg_outcome_unparsed :
  stack_svg parse_stub (fun _ => []) "first" "third" false true = Raise XMLSyntaxError.
Proof.
  apply (proj1 (proj2 (stack_svg_outcome parse_stub (fun _ => []) "first" "third"
                         false true)) doc_100x50);
    reflexivity.
Defined.

(** A text the parser refuses. *)
Lemma rescale_outcome_unparsed :
  rescale parse_stub (fun _ => []) px_text "third" 2%float = Raise XMLSyntaxError.
Proof.
  apply (proj1 (rescale_outcome parse_stub (fun _ => []) px_text "third" 2%float)).
  reflexivity.
Defined.

(** ["100pt"] is read as ["100"]. *)
Lemma pt_float_reads_100 :
  pt_float (Some "100pt") = (x ← float_of_str "100"; Ok ("100pt", x)).
Proof. apply (proj2 (pt_float_reads "100")). reflexivity. Defined.

End TextMore.

(* ===================================================================== *)
(** * Sizes and titles that are not applied *)
(* ===================================================================== *)

Module EnvelopeEdge.
Import Py Utils PyFacts.

Section Envelope.
Variable MplFigure : Type.
Variable set_size_inches : Z -> Z -> MplFigure -> MplFigure.
Variable suptitle : string -> MplFigure -> MplFigure.
Variable savefig : MplFigure -> string.
Variable fcompress : list byte -> string -> list byte.

(** X21. A width without a height, or a height without a width, is
    ignored: the record is the one of a call that gives neither. And a title
    that is not to be shown on the figure changes the record by its [title]
    key only: the text saved is that of a call without title. *)
Theorem mplfig_to_svg_dict_lone_size (mpl_fig : MplFigure) (file_name : string)
    (title : option string) (tags : option (list string)) (compress : Z)
    (w h : option Z) (fit : option bool)
    (run := mplfig_to_svg_dict MplFigure set_size_inches suptitle savefig fcompress
              mpl_fig file_name) :
  (w = None \/ h = None ->
     run title tags compress w h fit = run title tags compress None None fit)
  /\ (fit = None \/ fit = Some false ->
     run title tags compress w h fit !! "svg" = run None tags compress w h fit !! "svg"
     /\ run title tags compress w h fit !! "svg_str"
        = run None tags compress w h fit !! "svg_str").
Proof.
  subst run. split.
  - intros [-> | ->]; [reflexivity|]. destruct w; reflexivity.
  - intros F.
    assert (S : staged MplFigure set_size_inches suptitle mpl_fig title w h fit
                = staged MplFigure set_size_inches suptitle mpl_fig None w h fit).
    { unfold staged. destruct F as [-> | ->]; cbn [truthy_bool from_option id];
        rewrite andb_false_r; reflexivity. }
    assert (N : forall t, header file_name t tags !! "svg_str" = None).
    { intros t. apply (EnvelopeFacts.header_lookup file_name t tags); discriminate. }
    rewrite !EnvelopeMore.mplfig_to_svg_dict_header. cbn zeta. rewrite S.
    destruct (compress =? 0); [|destruct (compress =? 2)];
      split; rewrite !lookup_insert; repeat case_decide; try congruence;
      rewrite ?N; reflexivity.
Qed.

End Envelope.

(** A width of ten inches without a height. *)
Lemma mplfig_to_svg_dict_lone_width :
  mplfig_to_svg_dict unit (fun _ _ f => f) (fun _ f => f) render_stub compress_stub
    tt "plot.svg" None None 1 (Some 10) None None
  = mplfig_to_svg_dict unit (fun _ _ f => f) (fun _ f => f) render_stub compress_stub
      tt "plot.svg" None None 1 None None None.
Proof.
  apply (proj1 (mplfig_to_svg_dict_lone_size unit (fun _ _ f => f) (fun _ f => f)
                  render_stub compress_stub tt "plot.svg" None None 1 (Some 10) None None)).
  right. reflexivity.
Defined.

End EnvelopeEdge.
